(** * Dashboard of the real-time sentiment analysis platform

    A shallow embedding of the React dashboard (the fetch wrapper
    [services/api.js], the [Dashboard] component and the
    [DistributionChart] component) together with the properties of the
    dashboard specification that were checked against it.

    JavaScript numbers are IEEE 754 binary64 values and are modelled by the
    primitive floats of the kernel, so that every numeric example below is the
    result the code computes, bit for bit. *)

From Stdlib Require Import ZArith NArith List String Ascii Bool Lia Arith.
From Stdlib Require Import Floats DecimalString DecimalPos DecimalN.
From Stdlib Require Import Sorting.Sorted Sorting.Permutation.
Import ListNotations.

Local Open Scope string_scope.

(* ================================================================== *)
(** * The JavaScript host

    Built-ins the dashboard code calls: decimal rendering of integers,
    [Number.prototype.toFixed], ordinary objects with their property
    enumeration order. *)

Module Js.

(** Decimal digits of a natural number, as [String(n)] writes them. *)
Definition digits_of_N (n : N) : string := NilZero.string_of_uint (N.to_uint n).
Definition digits_of_nat (n : nat) : string := digits_of_N (N.of_nat n).

Fixpoint zeros (k : nat) : string :=
  match k with
  | O => ""
  | S k' => String "0" (zeros k')
  end.

(** ** [Number.prototype.toFixed(2)]

    The result of [x.toFixed(2)].  When [x >= 10^21] the built-in falls back
    to [Number::toString(x)], which is kept symbolic. *)
Inductive NumberString : Type :=
  | Literal (s : string)
  | ToString (x : float).

(** A finite double [(-1)^s * m * 2^e] has the exact magnitude
    [sf_num m e / sf_den e]. *)
Definition sf_num (m : positive) (e : Z) : Z := (Z.pos m * 2 ^ Z.max e 0)%Z.
Definition sf_den (e : Z) : Z := (2 ^ Z.max (- e) 0)%Z.

(** Step 10.a of [toFixed] with [f = 2]: "let n be an integer for which
    n / 10^f - x is as close to zero as possible; if there are two such n,
    pick the larger n". *)
Definition nearest_hundredths (num den : Z) : Z :=
  ((200 * num + den) / (2 * den))%Z.

(** Steps 10.b and 10.c: the digits of [n], padded with zeros on the left to
    three characters, with the point before the last two. *)
Definition fixed2_digits (n : Z) : string :=
  let m := digits_of_N (Z.to_N n) in
  let k := String.length m in
  let m := if (k <=? 2)%nat then zeros (3 - k) ++ m else m in
  let k := if (k <=? 2)%nat then 3%nat else k in
  substring 0 (k - 2) m ++ "." ++ substring (k - 2) 2 m.

Definition toFixed2 (x : float) : NumberString :=
  match Prim2SF x with
  | S754_nan => Literal "NaN"
  | S754_infinity false => Literal "Infinity"
  | S754_infinity true => Literal "-Infinity"
  | S754_zero _ => Literal (fixed2_digits 0)
  | S754_finite s m e =>
      if (10 ^ 21 * sf_den e <=? sf_num m e)%Z then ToString x
      else Literal ((if s then "-" else "")
                      ++ fixed2_digits (nearest_hundredths (sf_num m e) (sf_den e)))
  end.

(** ** Ordinary objects

    A property key is a string; the keys that are canonical array indices
    ("0", "1", ...) are enumerated first, in ascending numeric order, and the
    other keys follow in the order in which they were created
    (OrdinaryOwnPropertyKeys).  [IndexKey n] stands for the key [String(n)]
    of an array index [n] (the hours of a day are); [StringKey s] for a key
    [s] that is not an array index. *)
Inductive PropertyKey : Type :=
  | IndexKey (n : nat)
  | StringKey (s : string).

Definition key_eqb (a b : PropertyKey) : bool :=
  match a, b with
  | IndexKey n, IndexKey m => Nat.eqb n m
  | StringKey s, StringKey t => String.eqb s t
  | _, _ => false
  end.

Definition key_to_string (k : PropertyKey) : string :=
  match k with
  | IndexKey n => digits_of_nat n
  | StringKey s => s
  end.

(** An object is the list of its own properties in creation order. *)
Definition Object (V : Type) : Type := list (PropertyKey * V).

Section ObjectOps.
Context {V : Type}.

Fixpoint get (o : Object V) (k : PropertyKey) : option V :=
  match o with
  | [] => None
  | (k', v) :: o' => if key_eqb k k' then Some v else get o' k
  end.

(** [o[k] = v]: an existing property keeps its place, a new one is added
    last. *)
Fixpoint set (o : Object V) (k : PropertyKey) (v : V) : Object V :=
  match o with
  | [] => [(k, v)]
  | (k', v') :: o' =>
      if key_eqb k k' then (k', v) :: o' else (k', v') :: set o' k v
  end.

Fixpoint insert_asc (n : nat) (l : list nat) : list nat :=
  match l with
  | [] => [n]
  | m :: l' => if (n <=? m)%nat then n :: l else m :: insert_asc n l'
  end.

Fixpoint index_keys (o : Object V) : list nat :=
  match o with
  | [] => []
  | (IndexKey n, _) :: o' => insert_asc n (index_keys o')
  | (StringKey _, _) :: o' => index_keys o'
  end.

Fixpoint string_keys (o : Object V) : list string :=
  match o with
  | [] => []
  | (IndexKey _, _) :: o' => string_keys o'
  | (StringKey s, _) :: o' => s :: string_keys o'
  end.

(** [Object.keys(o)]. *)
Definition keys (o : Object V) : list PropertyKey :=
  map IndexKey (index_keys o) ++ map StringKey (string_keys o).
End ObjectOps.

(** ** Exceptions, JSON values and [JSON.parse] *)

Inductive Exn : Type := TypeError | SyntaxError.

#[warnings="-register-all"] Inductive Json : Type :=
  | JNull
  | JBool (b : bool)
  | JNumber (x : float)
  | JString (s : string)
  | JArray (items : list Json)
  | JObject (members : list (string * Json)).

(** A text handed to [JSON.parse], given by what the parser makes of it: the
    text of a JSON value, or a text that is not JSON. *)
Inductive Text : Type :=
  | JsonText (v : Json)
  | OtherText (raw : string).

Definition JSON_parse (t : Text) : Exn + Json :=
  match t with
  | JsonText v => inr v
  | OtherText _ => inl SyntaxError
  end.

End Js.

(* ================================================================== *)
(** * Data of the dashboard *)

(** The three sentiment labels of the REST contract. *)
Inductive Label : Type := Positive | Negative | Neutral.

Definition label_name (l : Label) : string :=
  match l with
  | Positive => "positive"
  | Negative => "negative"
  | Neutral => "neutral"
  end.

(** The distribution object [{ positive, negative, neutral }]; its counts are
    JavaScript numbers. *)
Module Distribution.
Record t : Type := mk { positive : float; negative : float; neutral : float }.

(** [data[k]] for one of the three keys. *)
Definition get (data : t) (k : Label) : float :=
  match k with
  | Positive => positive data
  | Negative => negative data
  | Neutral => neutral data
  end.

(** [Object.keys(data)] of an object whose three keys were created in the
    order [positive], [negative], [neutral], as in the [useState] literal of
    the dashboard.  For an object that lists them in another order the same
    slices come in that order. *)
Definition keys (data : t) : list Label := [Positive; Negative; Neutral].

Definition zero : t := mk 0 0 0.
End Distribution.

(* ================================================================== *)
(** * [components/DistributionChart.jsx] *)

Module DistributionChart.

(** One element of [chartData]. *)
Record Slice : Type := mkSlice {
  name : Label;
  value : float;
  percentage : Js.NumberString
}.

(** What the component returns: the "No sentiment data available"
    paragraph, or the pie chart over [chartData]. *)
Inductive Rendered : Type :=
| NoData
| Chart (chartData : list Slice).

(** A division executed while rendering. *)
Record Division : Type := mkDivision { dividend : float; divisor : float }.

Definition total (data : Distribution.t) : float :=
  (Distribution.positive data + Distribution.negative data
   + Distribution.neutral data)%float.

(** The callback of [.map]: builds one slice and performs one division. *)
Definition slice_of (data : Distribution.t) (total : float) (k : Label)
  : Slice * Division :=
  let v := Distribution.get data k in
  (mkSlice k v (Js.toFixed2 ((v / total) * 100)%float), mkDivision v total).

(** The component body, with the divisions it performs. *)
Definition render (data : Distribution.t) : Rendered * list Division :=
  let total := total data in
  if (total =? 0)%float then (NoData, [])
  else
    let kept := filter (fun k => (0 <? Distribution.get data k)%float)
                       (Distribution.keys data) in
    let run := map (slice_of data total) kept in
    (Chart (map fst run), map snd run).

Definition DistributionChart (data : Distribution.t) : Rendered :=
  fst (render data).

Definition divisions (data : Distribution.t) : list Division :=
  snd (render data).

End DistributionChart.

(* ================================================================== *)
(** * Posts and trend points *)

Module Post.
Record Sentiment : Type := mkSentiment { label : Label }.

(** A post of the REST response.  [created_at] is [None] when the property
    is absent ([undefined]). *)
Record t : Type := mk {
  post_id : string;
  content : string;
  created_at : option string;
  sentiment : Sentiment
}.
End Post.

(** The per-hour counters [{ positive: 0, negative: 0, neutral: 0 }]. *)
Module Bucket.
Record t : Type := mk { positive : nat; negative : nat; neutral : nat }.

Definition zero : t := mk 0 0 0.

(** [bucket[label]++] *)
Definition incr (b : t) (l : Label) : t :=
  match l with
  | Positive => mk (S (positive b)) (negative b) (neutral b)
  | Negative => mk (positive b) (S (negative b)) (neutral b)
  | Neutral => mk (positive b) (negative b) (S (neutral b))
  end.

Definition sum (b : t) : nat := positive b + negative b + neutral b.
End Bucket.

(** An element of [trendData]: [{ timestamp: `Hour ${h}`, ...buckets[h] }]. *)
Module TrendPoint.
Record t : Type := mk {
  timestamp : string;
  positive : nat;
  negative : nat;
  neutral : nat
}.

Definition sum (p : t) : nat := positive p + negative p + neutral p.
End TrendPoint.

(* ================================================================== *)
(** * Handlers as runs

    A callback calls React state setters and either returns or throws.  A run
    is the list of setter calls made, in order, with the way it ended. *)

Module Run.
Section WithCalls.
Context {C : Type}.

Definition t (A : Type) : Type := (list C * (Js.Exn + A))%type.

Definition ret {A} (a : A) : t A := ([], inr a).
Definition throw {A} (e : Js.Exn) : t A := ([], inl e).
Definition call (c : C) : t unit := ([c], inr tt).

Definition bind {A B} (m : t A) (k : A -> t B) : t B :=
  match m with
  | (cs, inl e) => (cs, inl e)
  | (cs, inr a) => let (cs', r) := k a in ((cs ++ cs')%list, r)
  end.

Definition calls {A} (m : t A) : list C := fst m.
Definition completion {A} (m : t A) : Js.Exn + A := snd m.
End WithCalls.
Arguments t : clear implicits.
End Run.

Notation "m ;; k" := (Run.bind m (fun _ => k))
  (at level 61, right associativity).

(* ================================================================== *)
(** * [services/api.js] *)

Module Api.

Definition API_BASE : string := "http://localhost:8000".

(** A JSON value other than [null] received from
    [/api/sentiment/distribution], as far as the dashboard reads it:
    [d.distribution], [None] ([undefined]) when the value has no such
    property. *)
Record DistributionBody : Type :=
  mkDistributionBody { distribution : option Distribution.t }.

(** A JSON value other than [null] received from [/api/posts]: [d.posts]. *)
Record PostsBody : Type := mkPostsBody { posts : option (list Post.t) }.

(** What [res.json()] yields for a body that is JSON: [null], on which every
    property read throws, or another value. *)
Inductive Parsed (B : Type) : Type :=
| JsonNull
| JsonValue (d : B).
Arguments JsonNull {B}.
Arguments JsonValue {B} d.

(** What the network answers to one [fetch]: no answer at all, or a response
    with a status code and a body that [res.json()] parses ([Some]) or
    rejects ([None]). *)
Inductive Exchange (B : Type) : Type :=
| NetworkError
| Response (status : nat) (body : option (Parsed B)).
Arguments NetworkError {B}.
Arguments Response {B} status body.

Inductive Promise (A : Type) : Type :=
| Fulfilled (a : A)
| Rejected (e : Js.Exn).
Arguments Fulfilled {A} a.
Arguments Rejected {A} e.

(** [const res = await fetch(url); return res.json();] *)
Definition fetch_json {B} (url : string) (x : Exchange B)
  : Promise (Parsed B) :=
  match x with
  | NetworkError => Rejected Js.TypeError
  | Response _ None => Rejected Js.SyntaxError
  | Response _ (Some d) => Fulfilled d
  end.

Definition fetchDistribution (hours : nat) (x : Exchange DistributionBody)
  : Promise (Parsed DistributionBody) :=
  fetch_json (API_BASE ++ "/api/sentiment/distribution?hours="
                ++ Js.digits_of_nat hours) x.

Definition fetchPosts (limit offset : nat) (x : Exchange PostsBody)
  : Promise (Parsed PostsBody) :=
  fetch_json (API_BASE ++ "/api/posts?limit=" ++ Js.digits_of_nat limit
                ++ "&offset=" ++ Js.digits_of_nat offset) x.

(** A [MessageEvent] of the socket. *)
Record MessageEvent : Type := mkMessageEvent { data : Js.Text }.

(** The socket with the three callbacks [connectWebSocket] installs. *)
Record WebSocket (C : Type) : Type := mkWebSocket {
  onmessage : MessageEvent -> Run.t C unit;
  onerror : Run.t C unit;
  onclose : Run.t C unit
}.
Arguments mkWebSocket {C}.
Arguments onmessage {C}.
Arguments onerror {C}.
Arguments onclose {C}.

Definition connectWebSocket {C} (onMessage : Js.Json -> Run.t C unit)
    (onError onClose : Run.t C unit) : WebSocket C :=
  {| onmessage := fun e =>
       match Js.JSON_parse (data e) with
       | inl exn => Run.throw exn
       | inr msg => onMessage msg
       end;
     onerror := onError;
     onclose := onClose |}.

End Api.

(* ================================================================== *)
(** * [components/Dashboard.jsx] *)

Module Dashboard.

Inductive Status : Type := connecting | connected | disconnected.

(** The five [useState] cells of the component.  [distribution] and [posts]
    are [None] once a setter has stored [undefined] in them. *)
Record State : Type := mkState {
  distribution : option Distribution.t;
  posts : option (list Post.t);
  trend : list TrendPoint.t;
  status : Status;
  lastUpdate : string
}.

(** The initial values given to [useState]. *)
Definition initial : State :=
  {| distribution := Some Distribution.zero;
     posts := Some [];
     trend := [];
     status := connecting;
     lastUpdate := "--" |}.

(** A call of one of the five state setters. *)
Inductive SetterCall : Type :=
| setDistribution (v : option Distribution.t)
| setPosts (v : option (list Post.t))
| setTrend (v : list TrendPoint.t)
| setStatus (v : Status)
| setLastUpdate (v : string).

Definition apply (s : State) (c : SetterCall) : State :=
  match c with
  | setDistribution v =>
      mkState v (posts s) (trend s) (status s) (lastUpdate s)
  | setPosts v =>
      mkState (distribution s) v (trend s) (status s) (lastUpdate s)
  | setTrend v =>
      mkState (distribution s) (posts s) v (status s) (lastUpdate s)
  | setStatus v =>
      mkState (distribution s) (posts s) (trend s) v (lastUpdate s)
  | setLastUpdate v =>
      mkState (distribution s) (posts s) (trend s) (status s) v
  end.

Definition M : Type -> Type := Run.t SetterCall.

Section WithHost.

(** [new Date(t).getHours()] of the host, in its local time zone: the hour of
    day, or [None] (NaN) when [t] does not parse as a date. *)
Variable getHours : string -> option nat.

(** [new Date(p.created_at).getHours()], as the property key it is used as. *)
Definition hour (p : Post.t) : Js.PropertyKey :=
  match Post.created_at p with
  | Some t =>
      match getHours t with
      | Some h => Js.IndexKey h
      | None => Js.StringKey "NaN"
      end
  | None => Js.StringKey "NaN"
  end.

(** The callback of [d.posts.forEach]. *)
Definition bucket_post (buckets : Js.Object Bucket.t) (p : Post.t)
  : Js.Object Bucket.t :=
  let hour := hour p in
  let b := match Js.get buckets hour with
           | Some b => b
           | None => Bucket.zero
           end in
  let buckets := Js.set buckets hour b in
  Js.set buckets hour (Bucket.incr b (Post.label (Post.sentiment p))).

Definition buckets (posts : list Post.t) : Js.Object Bucket.t :=
  fold_left bucket_post posts [].

(** The callback of [Object.keys(buckets).map].  Every key that
    [Object.keys] lists is present, so the lookup succeeds. *)
Definition trend_point (buckets : Js.Object Bucket.t) (h : Js.PropertyKey)
  : TrendPoint.t :=
  let b := match Js.get buckets h with
           | Some b => b
           | None => Bucket.zero
           end in
  TrendPoint.mk ("Hour " ++ Js.key_to_string h)
                (Bucket.positive b) (Bucket.negative b) (Bucket.neutral b).

Definition trendData (posts : list Post.t) : list TrendPoint.t :=
  let buckets := buckets posts in
  map (trend_point buckets) (Js.keys buckets).

(** [fetchDistribution().then(d => setDistribution(d.distribution))] once
    the request has settled.  Reading [d.distribution] of [null] throws
    before the setter is called. *)
Definition distribution_settled (x : Api.Exchange Api.DistributionBody)
  : M unit :=
  match Api.fetchDistribution 24 x with
  | Api.Fulfilled (Api.JsonValue d) =>
      Run.call (setDistribution (Api.distribution d))
  | Api.Fulfilled Api.JsonNull => Run.throw Js.TypeError
  | Api.Rejected e => Run.throw e
  end.

(** [fetchPosts(20, 0).then(d => { ... })] once the request has settled. *)
Definition posts_settled (x : Api.Exchange Api.PostsBody) : M unit :=
  match Api.fetchPosts 20 0 x with
  | Api.Fulfilled (Api.JsonValue d) =>
      Run.call (setPosts (Api.posts d)) ;;
      match Api.posts d with
      | Some ps => Run.call (setTrend (trendData ps))
      | None => Run.throw Js.TypeError
      end
  | Api.Fulfilled Api.JsonNull => Run.throw Js.TypeError
  | Api.Rejected e => Run.throw e
  end.

(** The socket of the component; [now] is what
    [new Date().toLocaleTimeString()] reads when the message callback runs
    (the other two callbacks do not read the clock). *)
Definition ws (now : string) : Api.WebSocket SetterCall :=
  Api.connectWebSocket
    (fun msg => Run.call (setStatus connected) ;; Run.call (setLastUpdate now))
    (Run.call (setStatus disconnected))
    (Run.call (setStatus disconnected)).

(** What happens to the mounted component. *)
Inductive Event : Type :=
| DistributionSettled (x : Api.Exchange Api.DistributionBody)
| PostsSettled (x : Api.Exchange Api.PostsBody)
| ChannelMessage (e : Api.MessageEvent) (now : string)
| ChannelError
| ChannelClose.

Definition handle (e : Event) : M unit :=
  match e with
  | DistributionSettled x => distribution_settled x
  | PostsSettled x => posts_settled x
  | ChannelMessage ev now => Api.onmessage (ws now) ev
  | ChannelError => Api.onerror (ws "")
  | ChannelClose => Api.onclose (ws "")
  end.

(** The state after a callback: every setter call it made is applied, also
    when it threw afterwards. *)
Definition step (s : State) (e : Event) : State :=
  fold_left apply (Run.calls (handle e)) s.

Definition run (trace : list Event) : State := fold_left step trace initial.

(** The setter calls of a whole trace, each with the event whose callback
    made it. *)
Definition writes (trace : list Event) : list (Event * SetterCall) :=
  flat_map (fun e => map (pair e) (Run.calls (handle e))) trace.

Definition is_channel_callback (e : Event) : bool :=
  match e with
  | ChannelMessage _ _ | ChannelError | ChannelClose => true
  | DistributionSettled _ | PostsSettled _ => false
  end.

Definition writes_status (c : SetterCall) : bool :=
  match c with
  | setStatus _ => true
  | _ => false
  end.

End WithHost.

End Dashboard.

(* ================================================================== *)
(** * A host for the examples

    A host whose local time zone is the one the timestamps are written in:
    the hour of [YYYY-MM-DDTHH:MM:SS] is the number [HH]. *)

Definition digit_value (c : ascii) : option nat :=
  let n := nat_of_ascii c in
  if ((48 <=? n) && (n <=? 57))%nat then Some (n - 48) else None.

Definition iso_hours (t : string) : option nat :=
  match String.get 11 t, String.get 12 t with
  | Some a, Some b =>
      match digit_value a, digit_value b with
      | Some x, Some y =>
          let h := 10 * x + y in
          if (h <? 24)%nat then Some h else None
      | _, _ => None
      end
  | _, _ => None
  end.

(* ================================================================== *)
(** * Counting posts

    The reference the trend computation is compared with: the number of
    posts of a list that fall under a bucket key and carry a label. *)

Definition label_eqb (a b : Label) : bool :=
  match a, b with
  | Positive, Positive | Negative, Negative | Neutral, Neutral => true
  | _, _ => false
  end.

Section Counting.
Variable getHours : string -> option nat.

Definition in_bucket (k : Js.PropertyKey) (p : Post.t) : bool :=
  Js.key_eqb (Dashboard.hour getHours p) k.

Definition count_label (k : Js.PropertyKey) (l : Label) (posts : list Post.t)
  : nat :=
  List.length (filter (fun p => in_bucket k p
                           && label_eqb (Post.label (Post.sentiment p)) l)
                 posts).

Definition tally (k : Js.PropertyKey) (posts : list Post.t) : Bucket.t :=
  Bucket.mk (count_label k Positive posts) (count_label k Negative posts)
            (count_label k Neutral posts).

(** The trend point of the bucket with key [k]. *)
Definition point_of (posts : list Post.t) (k : Js.PropertyKey) : TrendPoint.t :=
  TrendPoint.mk ("Hour " ++ Js.key_to_string k)
                (count_label k Positive posts) (count_label k Negative posts)
                (count_label k Neutral posts).

End Counting.

(** The sum of all counters of an object of buckets. *)
Definition obj_total (o : Js.Object Bucket.t) : nat :=
  list_sum (map (fun kv => Bucket.sum (snd kv)) o).

Definition bucket_or_zero (o : Js.Object Bucket.t) (k : Js.PropertyKey)
  : Bucket.t :=
  match Js.get o k with
  | Some b => b
  | None => Bucket.zero
  end.

(** Posts for the examples: two in hour 10, one positive and one negative,
    and a neutral one in hour 14. *)
Definition example_posts : list Post.t :=
  [ Post.mk "p1" "great" (Some "2024-03-05T10:15:00") (Post.mkSentiment Positive);
    Post.mk "p2" "awful" (Some "2024-03-05T10:40:00") (Post.mkSentiment Negative);
    Post.mk "p3" "fine" (Some "2024-03-05T14:05:00") (Post.mkSentiment Neutral) ].

(** A message of the live channel, as the API documentation shows it. *)
Definition example_message : Api.MessageEvent :=
  Api.mkMessageEvent
    (Js.JsonText
       (Js.JObject
          [("type", Js.JString "new_post");
           ("data", Js.JObject [("post_id", Js.JString "12345");
                                ("sentiment_label", Js.JString "positive")])])).

Definition error_posts_body : Api.PostsBody := Api.mkPostsBody None.

(* ================================================================== *)
(** * [components/LiveFeed.jsx] *)

Module LiveFeed.

(** One row of the feed: the React key, the label in bold and the text
    after it.  A string is the sequence of its code units. *)
Record Row : Type := mkRow { key : string; label : Label; text : string }.

(** The callback of [posts.map]; the text is [p.content.slice(0, 80)]. *)
Definition row_of (p : Post.t) : Row :=
  mkRow (Post.post_id p) (Post.label (Post.sentiment p))
        (substring 0 80 (Post.content p)).

(** The component; [posts.map] of [undefined] is a [TypeError]. *)
Definition LiveFeed (posts : option (list Post.t)) : Js.Exn + list Row :=
  match posts with
  | Some ps => inr (map row_of ps)
  | None => inl Js.TypeError
  end.

End LiveFeed.

(* ================================================================== *)
(** * [components/SentimentChart.jsx] *)

Module SentimentChart.

(** The "No trend data" paragraph, or the line chart over [data]. *)
Inductive Rendered : Type :=
| NoTrendData
| LineChart (data : list TrendPoint.t).

(** [if (!data.length) return <p>No trend data</p>;] *)
Definition SentimentChart (data : list TrendPoint.t) : Rendered :=
  if (List.length data =? 0)%nat then NoTrendData else LineChart data.

End SentimentChart.

(* ================================================================== *)
(** * [components/MetricsCards.jsx] *)

Module MetricsCards.

(** [Object.entries(o)]: the own properties in the order of [Object.keys]. *)
Definition Object_entries {V : Type} (o : Js.Object V) : list (string * V) :=
  flat_map (fun k => match Js.get o k with
                     | Some v => [(Js.key_to_string k, v)]
                     | None => []
                     end)
           (Js.keys o).

(** A card: the property name as heading and its value below. *)
Record Card : Type := mkCard { heading : string; shown : float }.

Definition MetricsCards (metrics : Js.Object float) : list Card :=
  map (fun kv => mkCard (fst kv) (snd kv)) (Object_entries metrics).

End MetricsCards.

(* ================================================================== *)
(** * What [Dashboard] renders *)

Module DashboardView.

Definition status_name (s : Dashboard.Status) : string :=
  match s with
  | Dashboard.connecting => "connecting"
  | Dashboard.connected => "connected"
  | Dashboard.disconnected => "disconnected"
  end.

(** The object literal [{ Total: total, Positive: ..., Negative: ...,
    Neutral: ... }] passed to [MetricsCards]. *)
Definition metrics (total : float) (d : Distribution.t) : Js.Object float :=
  Js.set
    (Js.set
       (Js.set (Js.set [] (Js.StringKey "Total") total)
               (Js.StringKey "Positive") (Distribution.positive d))
       (Js.StringKey "Negative") (Distribution.negative d))
    (Js.StringKey "Neutral") (Distribution.neutral d).

(** The rendered dashboard: the header line and the four children. *)
Record View : Type := mkView {
  status_text : string;
  last_update_text : string;
  chart : DistributionChart.Rendered;
  feed : list LiveFeed.Row;
  trend_chart : SentimentChart.Rendered;
  cards : list MetricsCards.Card
}.

(** The body of [Dashboard] after the hooks: [total] reads the three
    properties of [distribution] (a [TypeError] when it is [undefined]), then
    the children render. *)
Definition render (s : Dashboard.State) : Js.Exn + View :=
  match Dashboard.distribution s with
  | None => inl Js.TypeError
  | Some distribution =>
      let total :=
        (Distribution.positive distribution + Distribution.negative distribution
         + Distribution.neutral distribution)%float in
      match LiveFeed.LiveFeed (Dashboard.posts s) with
      | inl e => inl e
      | inr rows =>
          inr (mkView (status_name (Dashboard.status s))
                      (Dashboard.lastUpdate s)
                      (DistributionChart.DistributionChart distribution)
                      rows
                      (SentimentChart.SentimentChart (Dashboard.trend s))
                      (MetricsCards.MetricsCards (metrics total distribution)))
      end
  end.

(** A settled request whose body, when it is JSON, has the property the
    callback reads ([null] has none). *)
Definition body_complete (e : Dashboard.Event) : bool :=
  match e with
  | Dashboard.DistributionSettled (Api.Response _ (Some (Api.JsonValue d))) =>
      match Api.distribution d with Some _ => true | None => false end
  | Dashboard.PostsSettled (Api.Response _ (Some (Api.JsonValue d))) =>
      match Api.posts d with Some _ => true | None => false end
  | Dashboard.DistributionSettled (Api.Response _ (Some Api.JsonNull))
  | Dashboard.PostsSettled (Api.Response _ (Some Api.JsonNull)) => false
  | _ => true
  end.

(** A channel callback that calls [setStatus]: an error, a close, or a
    message whose data is JSON. *)
Definition sets_status (e : Dashboard.Event) : option Dashboard.Status :=
  match e with
  | Dashboard.ChannelMessage ev _ =>
      match Api.data ev with
      | Js.JsonText _ => Some Dashboard.connected
      | Js.OtherText _ => None
      end
  | Dashboard.ChannelError | Dashboard.ChannelClose =>
      Some Dashboard.disconnected
  | _ => None
  end.

(** The clock reading a message with JSON data stores as last update. *)
Definition sets_last_update (e : Dashboard.Event) : option string :=
  match e with
  | Dashboard.ChannelMessage ev now =>
      match Api.data ev with
      | Js.JsonText _ => Some now
      | Js.OtherText _ => None
      end
  | _ => None
  end.

End DashboardView.

(** The part of a post the trend computation reads. *)
Definition trend_key (getHours : string -> option nat) (p : Post.t)
  : Js.PropertyKey * Label :=
  (Dashboard.hour getHours p, Post.label (Post.sentiment p)).

(** The posts of [example_posts] in another order, with other identifiers,
    contents and calendar days, but the same hours and labels. *)
Definition example_posts_shuffled : list Post.t :=
  [ Post.mk "q1" "so-so" (Some "2025-01-01T14:59:59") (Post.mkSentiment Neutral);
    Post.mk "q2" "good" (Some "2023-12-31T10:00:00") (Post.mkSentiment Positive);
    Post.mk "q3" "bad" (Some "2024-07-04T10:30:00") (Post.mkSentiment Negative) ].

(** A run in which both fetches succeed, a message arrives and the channel
    closes. *)
Definition example_trace : list Dashboard.Event :=
  [ Dashboard.PostsSettled
      (Api.Response 200
         (Some (Api.JsonValue (Api.mkPostsBody (Some example_posts)))));
    Dashboard.DistributionSettled
      (Api.Response 200
         (Some (Api.JsonValue
                  (Api.mkDistributionBody (Some (Distribution.mk 45 12 20))))));
    Dashboard.ChannelMessage example_message "10:00:00";
    Dashboard.ChannelClose ].


(* ================================================================== *)
(** * Properties of the host functions *)

Lemma sf_den_pos (e : Z) : (0 < Js.sf_den e)%Z.
Proof. unfold Js.sf_den. apply Z.pow_pos_nonneg; lia. Qed.

(** [nearest_hundredths num den] is the integer [n] with
    [n - 1/2 <= 100 * num / den < n + 1/2]. *)
Lemma nearest_hundredths_spec (num den : Z) :
  (0 < den)%Z ->
  let n := Js.nearest_hundredths num den in
  (2 * den * n <= 200 * num + den < 2 * den * (n + 1))%Z.
Proof.
  intros Hden n. subst n. unfold Js.nearest_hundredths.
  pose proof (Z.div_mod (200 * num + den) (2 * den) ltac:(lia)) as Hdm.
  pose proof (Z.mod_pos_bound (200 * num + den) (2 * den) ltac:(lia)) as Hb.
  set (q := ((200 * num + den) / (2 * den))%Z) in *.
  set (r := ((200 * num + den) mod (2 * den))%Z) in *.
  nia.
Qed.

(** What [toFixed(2)] returns on a finite double below [10^21]. *)
Lemma toFixed2_finite (x : float) (s : bool) (m : positive) (e : Z) :
  Prim2SF x = S754_finite s m e ->
  (Js.sf_num m e < 10 ^ 21 * Js.sf_den e)%Z ->
  exists n : Z,
    Js.toFixed2 x = Js.Literal ((if s then "-" else "") ++ Js.fixed2_digits n)
    /\ (2 * Js.sf_den e * n <= 200 * Js.sf_num m e + Js.sf_den e
        < 2 * Js.sf_den e * (n + 1))%Z.
Proof.
  intros Hx Hlt.
  exists (Js.nearest_hundredths (Js.sf_num m e) (Js.sf_den e)). split.
  - unfold Js.toFixed2. rewrite Hx.
    destruct (Z.leb_spec (10 ^ 21 * Js.sf_den e) (Js.sf_num m e)) as [Hge|_].
    + lia.
    + reflexivity.
  - apply nearest_hundredths_spec, sf_den_pos.
Qed.

(* ================================================================== *)
(** * Properties of [DistributionChart] *)

Section DistributionChartFacts.
Import DistributionChart.

Lemma render_zero_total (data : Distribution.t) :
  (total data =? 0)%float = true -> render data = (NoData, []).
Proof. intros H. unfold render. now rewrite H. Qed.

Lemma render_nonzero_total (data : Distribution.t) :
  (total data =? 0)%float = false ->
  render data =
    let kept := filter (fun k => (0 <? Distribution.get data k)%float)
                       (Distribution.keys data) in
    (Chart (map (fun k => fst (slice_of data (total data) k)) kept),
     map (fun k => snd (slice_of data (total data) k)) kept).
Proof. intros H. unfold render. rewrite H. cbv zeta. now rewrite !map_map. Qed.

Lemma NoDup_filter_labels (f : Label -> bool) :
  NoDup (filter f [Positive; Negative; Neutral]).
Proof.
  apply NoDup_filter.
  repeat constructor; simpl; intuition discriminate.
Qed.

(** C1 (as the code has it).  When the total is not zero, the chart data
    holds one slice for each label whose count is greater than zero and none
    for the other labels; the slice carries the count and the percentage
    [((count / total) * 100).toFixed(2)], which for a finite double [x] below
    [10^21] is the decimal [n / 100] with [n - 1/2 <= 100 * |x| < n + 1/2]:
    the double (not the exact quotient) rounded to two decimals, ties away
    from zero. *)
Theorem breakdown_of_nonzero_total (data : Distribution.t) :
  (total data =? 0)%float = false ->
  exists chartData,
    DistributionChart data = Chart chartData
    /\ (forall k, In k (map name chartData)
                  <-> (0 <? Distribution.get data k)%float = true)
    /\ NoDup (map name chartData)
    /\ (forall s, In s chartData ->
          value s = Distribution.get data (name s)
          /\ percentage s = Js.toFixed2 (value s / total data * 100)%float)
    /\ (forall s sg m e, In s chartData ->
          Prim2SF (value s / total data * 100)%float = S754_finite sg m e ->
          (Js.sf_num m e < 10 ^ 21 * Js.sf_den e)%Z ->
          exists n : Z,
            percentage s
              = Js.Literal ((if sg then "-" else "") ++ Js.fixed2_digits n)
            /\ (2 * Js.sf_den e * n <= 200 * Js.sf_num m e + Js.sf_den e
                < 2 * Js.sf_den e * (n + 1))%Z).
Proof.
  intros Hnz.
  set (kept := filter (fun k => (0 <? Distribution.get data k)%float)
                      (Distribution.keys data)).
  exists (map (fun k => fst (slice_of data (total data) k)) kept).
  assert (Hnames : map name (map (fun k => fst (slice_of data (total data) k)) kept)
                   = kept).
  { rewrite map_map. simpl. apply map_id. }
  assert (Hslice : forall s,
             In s (map (fun k => fst (slice_of data (total data) k)) kept) ->
             value s = Distribution.get data (name s)
             /\ percentage s = Js.toFixed2 (value s / total data * 100)%float).
  { intros s Hs. apply in_map_iff in Hs. destruct Hs as [k [<- _]].
    simpl. split; reflexivity. }
  split; [| split; [| split; [| split]]].
  - unfold DistributionChart. rewrite (render_nonzero_total data Hnz).
    reflexivity.
  - intros k. rewrite Hnames. unfold kept. rewrite filter_In.
    unfold Distribution.keys. simpl. destruct k; intuition.
  - rewrite Hnames. apply NoDup_filter_labels.
  - exact Hslice.
  - intros s sg m e Hs Hsf Hlt.
    destruct (Hslice s Hs) as [_ Hp]. rewrite Hp.
    eapply toFixed2_finite; eassumption.
Qed.

(** On [{positive: 3, negative: 1, neutral: 0}] the chart has the two slices
    75.00 and 25.00. *)
Lemma breakdown_of_nonzero_total_witness :
  (total (Distribution.mk 3 1 0) =? 0)%float = false
  /\ exists chartData,
       DistributionChart (Distribution.mk 3 1 0) = Chart chartData
       /\ (forall k, In k (map name chartData)
             <-> (0 <? Distribution.get (Distribution.mk 3 1 0) k)%float = true)
       /\ NoDup (map name chartData)
       /\ (forall s, In s chartData ->
             value s = Distribution.get (Distribution.mk 3 1 0) (name s)
             /\ percentage s
                = Js.toFixed2
                    (value s / total (Distribution.mk 3 1 0) * 100)%float)
       /\ (forall s sg m e, In s chartData ->
             Prim2SF (value s / total (Distribution.mk 3 1 0) * 100)%float
               = S754_finite sg m e ->
             (Js.sf_num m e < 10 ^ 21 * Js.sf_den e)%Z ->
             exists n : Z,
               percentage s
                 = Js.Literal ((if sg then "-" else "") ++ Js.fixed2_digits n)
               /\ (2 * Js.sf_den e * n <= 200 * Js.sf_num m e + Js.sf_den e
                   < 2 * Js.sf_den e * (n + 1))%Z).
Proof.
  split.
  - vm_compute. reflexivity.
  - apply (breakdown_of_nonzero_total (Distribution.mk 3 1 0)).
    vm_compute. reflexivity.
Defined.

(** C1 (as stated) fails: on [{positive: 3, negative: 1, neutral: 0}] the
    label with count 0 is filtered out, and no percentage is reported for
    [neutral]. *)
Lemma breakdown_omits_zero_count :
  DistributionChart (Distribution.mk 3 1 0)
  = Chart [mkSlice Positive 3 (Js.Literal "75.00");
           mkSlice Negative 1 (Js.Literal "25.00")]
  /\ ~ (exists chartData s,
          DistributionChart (Distribution.mk 3 1 0) = Chart chartData
          /\ In s chartData /\ name s = Neutral).
Proof.
  assert (H : DistributionChart (Distribution.mk 3 1 0)
              = Chart [mkSlice Positive 3 (Js.Literal "75.00");
                       mkSlice Negative 1 (Js.Literal "25.00")]).
  { vm_compute. reflexivity. }
  split; [exact H |].
  intros [chartData [s [Hc [Hin Hn]]]].
  rewrite H in Hc. injection Hc as <-.
  simpl in Hin. destruct Hin as [<- | [<- | []]]; discriminate.
Qed.

(** The percentage is the rounding of the double, not of the exact quotient:
    201 of 20000 is exactly 1.005, which rounds half away from zero to 1.01,
    but [(201 / 20000) * 100] is a double just below 1.005 and is reported as
    1.00. *)
Lemma breakdown_rounds_the_double :
  DistributionChart (Distribution.mk 201 19799 0)
  = Chart [mkSlice Positive 201 (Js.Literal "1.00");
           mkSlice Negative 19799 (Js.Literal "99.00")]
  /\ Js.fixed2_digits (Js.nearest_hundredths (100 * 201) 20000) = "1.01".
Proof. split; vm_compute; reflexivity. Qed.

(** C6.  When the three counts sum to zero the component returns the
    "no data" paragraph and performs no division; every division the
    component ever performs has the total as divisor, and that divisor is
    not zero. *)
Theorem zero_total_is_no_data (data : Distribution.t) :
  ((total data =? 0)%float = true ->
     DistributionChart data = NoData /\ divisions data = [])
  /\ (forall d, In d (divisions data) ->
        divisor d = total data /\ (divisor d =? 0)%float = false).
Proof.
  split.
  - intros H. unfold DistributionChart, divisions.
    rewrite (render_zero_total data H). split; reflexivity.
  - intros d Hd. unfold divisions in Hd.
    destruct (total data =? 0)%float eqn:Ht.
    + rewrite (render_zero_total data Ht) in Hd. destruct Hd.
    + rewrite (render_nonzero_total data Ht) in Hd. simpl in Hd.
      apply in_map_iff in Hd. destruct Hd as [k [<- _]].
      simpl. split; [reflexivity | exact Ht].
Qed.

Lemma zero_total_is_no_data_witness :
  (total Distribution.zero =? 0)%float = true
  /\ DistributionChart Distribution.zero = NoData
  /\ divisions Distribution.zero = [].
Proof.
  split.
  - vm_compute. reflexivity.
  - apply (proj1 (zero_total_is_no_data Distribution.zero)).
    vm_compute. reflexivity.
Defined.

End DistributionChartFacts.

(* ================================================================== *)
(** * Properties of objects *)

Section ObjectFacts.
Context {V : Type}.
Implicit Types (o : Js.Object V) (k : Js.PropertyKey) (v : V).

Lemma key_eqb_eq k k' : Js.key_eqb k k' = true <-> k = k'.
Proof.
  destruct k as [n|s], k' as [m|t]; simpl; split; intros H;
    try discriminate; try congruence.
  - apply Nat.eqb_eq in H. now subst.
  - injection H as ->. apply Nat.eqb_refl.
  - apply String.eqb_eq in H. now subst.
  - injection H as ->. apply String.eqb_refl.
Qed.

Lemma key_eqb_refl k : Js.key_eqb k k = true.
Proof. now apply key_eqb_eq. Qed.

Lemma key_eqb_neq k k' : Js.key_eqb k k' = false <-> k <> k'.
Proof.
  split.
  - intros H ->. now rewrite key_eqb_refl in H.
  - intros H. destruct (Js.key_eqb k k') eqn:E; [| reflexivity].
    apply key_eqb_eq in E. contradiction.
Qed.

Lemma get_set_same o k v : Js.get (Js.set o k v) k = Some v.
Proof.
  induction o as [|[k' v'] o IH]; simpl.
  - now rewrite key_eqb_refl.
  - destruct (Js.key_eqb k k') eqn:E; simpl; rewrite E; auto.
Qed.

Lemma get_set_other o k k' v :
  k <> k' -> Js.get (Js.set o k v) k' = Js.get o k'.
Proof.
  intros Hne. induction o as [|[k0 v0] o IH]; simpl.
  - assert (E : Js.key_eqb k' k = false) by (apply key_eqb_neq; congruence).
    now rewrite E.
  - destruct (Js.key_eqb k k0) eqn:E; simpl.
    + apply key_eqb_eq in E. subst k0.
      assert (E' : Js.key_eqb k' k = false) by (apply key_eqb_neq; congruence).
      now rewrite E'.
    + destruct (Js.key_eqb k' k0); auto.
Qed.

Lemma set_set o k v v' : Js.set (Js.set o k v) k v' = Js.set o k v'.
Proof.
  induction o as [|[k0 v0] o IH]; simpl.
  - now rewrite key_eqb_refl.
  - destruct (Js.key_eqb k k0) eqn:E; simpl; rewrite E; congruence.
Qed.

Lemma get_None_iff o k : Js.get o k = None <-> ~ In k (map fst o).
Proof.
  induction o as [|[k0 v0] o IH]; simpl.
  - intuition.
  - destruct (Js.key_eqb k k0) eqn:E.
    + apply key_eqb_eq in E. subst. split; [discriminate | intuition].
    + apply key_eqb_neq in E. rewrite IH. intuition congruence.
Qed.

Lemma get_Some_iff o k : (exists v, Js.get o k = Some v) <-> In k (map fst o).
Proof.
  induction o as [|[k0 v0] o IH]; simpl.
  - split; [intros [v H]; discriminate | tauto].
  - destruct (Js.key_eqb k k0) eqn:E.
    + apply key_eqb_eq in E. subst. split; [auto | eauto].
    + apply key_eqb_neq in E. rewrite IH. intuition congruence.
Qed.

(** The own keys after [o[k] = v], in creation order. *)
Lemma own_keys_set o k v :
  map fst (Js.set o k v)
  = match Js.get o k with
    | Some _ => map fst o
    | None => (map fst o ++ [k])%list
    end.
Proof.
  induction o as [|[k0 v0] o IH]; simpl.
  - reflexivity.
  - destruct (Js.key_eqb k k0) eqn:E; simpl.
    + reflexivity.
    + rewrite IH. now destruct (Js.get o k).
Qed.

Lemma NoDup_own_keys_set o k v :
  NoDup (map fst o) -> NoDup (map fst (Js.set o k v)).
Proof.
  intros Hnd. rewrite own_keys_set.
  destruct (Js.get o k) eqn:E; [assumption |].
  apply get_None_iff in E.
  apply NoDup_app; [assumption | repeat constructor; simpl; tauto |].
  intros x Hx [<- | []]. contradiction.
Qed.

(** ** Enumeration order *)

Lemma insert_asc_perm (n : nat) (l : list nat) :
  Permutation (n :: l) (Js.insert_asc n l).
Proof.
  induction l as [|m l IH]; simpl.
  - apply Permutation_refl.
  - destruct (n <=? m)%nat.
    + apply Permutation_refl.
    + eapply perm_trans; [apply perm_swap | now apply perm_skip].
Qed.

Lemma insert_asc_In (n x : nat) (l : list nat) :
  In x (Js.insert_asc n l) <-> x = n \/ In x l.
Proof.
  split; intros H.
  - apply (Permutation_in _ (Permutation_sym (insert_asc_perm n l))) in H.
    simpl in H. intuition.
  - apply (Permutation_in _ (insert_asc_perm n l)). simpl. intuition.
Qed.

Lemma insert_asc_sorted (n : nat) (l : list nat) :
  ~ In n l -> StronglySorted lt l -> StronglySorted lt (Js.insert_asc n l).
Proof.
  intros Hn Hs. induction Hs as [|m l Hs IH Hall]; simpl.
  - repeat constructor.
  - destruct (Nat.leb_spec n m) as [Hle|Hgt].
    + assert (Hlt : n < m) by (simpl in Hn; lia).
      constructor; [constructor; assumption |].
      constructor; [assumption |].
      eapply Forall_impl; [| exact Hall]. simpl. intros; lia.
    + constructor.
      * apply IH. simpl in Hn. tauto.
      * apply Forall_forall. intros x Hx. apply insert_asc_In in Hx.
        destruct Hx as [-> | Hx]; [assumption |].
        rewrite Forall_forall in Hall. now apply Hall.
Qed.

Lemma index_keys_In o (n : nat) :
  In n (Js.index_keys o) <-> In (Js.IndexKey n) (map fst o).
Proof.
  induction o as [|[[m|s] v] o IH]; simpl.
  - tauto.
  - rewrite insert_asc_In, IH. intuition congruence.
  - rewrite IH. intuition congruence.
Qed.

Lemma string_keys_In o (s : string) :
  In s (Js.string_keys o) <-> In (Js.StringKey s) (map fst o).
Proof.
  induction o as [|[[m|t] v] o IH]; simpl.
  - tauto.
  - rewrite IH. intuition congruence.
  - rewrite IH. intuition congruence.
Qed.

(** The array-index keys are enumerated in strictly ascending order. *)
Lemma index_keys_sorted o :
  NoDup (map fst o) -> StronglySorted lt (Js.index_keys o).
Proof.
  induction o as [|[[m|s] v] o IH]; simpl; intros Hnd.
  - constructor.
  - inversion Hnd as [|? ? Hnot Hnd']; subst.
    apply insert_asc_sorted; [| now apply IH].
    now rewrite index_keys_In.
  - inversion Hnd; subst. now apply IH.
Qed.

Lemma NoDup_string_keys o :
  NoDup (map fst o) -> NoDup (Js.string_keys o).
Proof.
  induction o as [|[[m|s] v] o IH]; simpl; intros Hnd.
  - constructor.
  - inversion Hnd; subst. now apply IH.
  - inversion Hnd as [|? ? Hnot Hnd']; subst.
    constructor; [| now apply IH].
    now rewrite string_keys_In.
Qed.

(** [Object.keys] lists every own key once. *)
Lemma keys_perm o : Permutation (Js.keys o) (map fst o).
Proof.
  unfold Js.keys. induction o as [|[[m|s] v] o IH]; simpl.
  - constructor.
  - eapply perm_trans; [| apply perm_skip, IH].
    change (Js.IndexKey m :: map Js.IndexKey (Js.index_keys o)
            ++ map Js.StringKey (Js.string_keys o))%list
      with (map Js.IndexKey (m :: Js.index_keys o)
            ++ map Js.StringKey (Js.string_keys o))%list.
    apply Permutation_app_tail, Permutation_map, Permutation_sym,
      insert_asc_perm.
  - eapply perm_trans; [| apply perm_skip, IH].
    apply Permutation_sym, Permutation_middle.
Qed.

Lemma keys_In o k : In k (Js.keys o) <-> In k (map fst o).
Proof.
  split; apply Permutation_in;
    [apply keys_perm | apply Permutation_sym, keys_perm].
Qed.

End ObjectFacts.

(* ================================================================== *)
(** * Properties of the trend computation *)

Lemma list_sum_perm (l l' : list nat) :
  Permutation l l' -> list_sum l = list_sum l'.
Proof. induction 1; simpl; lia. Qed.

Lemma NoDup_all_equal {A : Type} (a : A) (l : list A) :
  NoDup l -> (forall x, In x l -> x = a) -> l = [] \/ l = [a].
Proof.
  intros Hnd Hall. destruct l as [|x [|y l]].
  - now left.
  - right. f_equal. apply Hall. now left.
  - exfalso. inversion Hnd as [|? ? Hnot _]; subst. apply Hnot.
    rewrite (Hall x), (Hall y); simpl; auto.
Qed.

Lemma sum_incr (b : Bucket.t) (l : Label) :
  Bucket.sum (Bucket.incr b l) = S (Bucket.sum b).
Proof. destruct b, l; unfold Bucket.sum; simpl; lia. Qed.

Lemma obj_total_set (o : Js.Object Bucket.t) k v :
  obj_total (Js.set o k v) + Bucket.sum (bucket_or_zero o k)
  = obj_total o + Bucket.sum v.
Proof.
  unfold obj_total, bucket_or_zero.
  induction o as [|[k0 v0] o IH]; simpl.
  - unfold Bucket.sum at 2. simpl. lia.
  - destruct (Js.key_eqb k k0) eqn:E; simpl; lia.
Qed.

Lemma values_by_own_keys (o : Js.Object Bucket.t) :
  NoDup (map fst o) -> map (bucket_or_zero o) (map fst o) = map snd o.
Proof.
  unfold bucket_or_zero.
  induction o as [|[k0 v0] o IH]; simpl; intros Hnd; [reflexivity |].
  inversion Hnd as [|? ? Hnot Hnd']; subst.
  rewrite key_eqb_refl. f_equal.
  rewrite <- (IH Hnd'). apply map_ext_in. intros k Hk.
  assert (E : Js.key_eqb k k0 = false).
  { apply key_eqb_neq. intros ->. contradiction. }
  now rewrite E.
Qed.

Section TrendFacts.
Variable getHours : string -> option nat.

Local Abbreviation hour := (Dashboard.hour getHours).
Local Abbreviation bucket_post := (Dashboard.bucket_post getHours).
Local Abbreviation buckets := (Dashboard.buckets getHours).
Local Abbreviation trendData := (Dashboard.trendData getHours).
Local Abbreviation inb := (in_bucket getHours).
Local Abbreviation count := (count_label getHours).
Local Abbreviation tal := (tally getHours).
Local Abbreviation point := (point_of getHours).

Lemma buckets_snoc (ps : list Post.t) (p : Post.t) :
  buckets (ps ++ [p]) = bucket_post (buckets ps) p.
Proof. unfold Dashboard.buckets. now rewrite fold_left_app. Qed.

(** The two assignments of the callback amount to one. *)
Lemma bucket_post_eq (o : Js.Object Bucket.t) (p : Post.t) :
  bucket_post o p
  = Js.set o (hour p)
      (Bucket.incr (bucket_or_zero o (hour p)) (Post.label (Post.sentiment p))).
Proof. unfold Dashboard.bucket_post. cbv zeta. now rewrite set_set. Qed.

Lemma count_label_snoc k l (ps : list Post.t) (p : Post.t) :
  count k l (ps ++ [p])
  = count k l ps
    + (if inb k p && label_eqb (Post.label (Post.sentiment p)) l
       then 1 else 0).
Proof.
  unfold count_label. rewrite filter_app, length_app. simpl.
  now destruct (_ && _).
Qed.

Lemma count_label_absent k l (ps : list Post.t) :
  existsb (inb k) ps = false -> count k l ps = 0.
Proof.
  unfold count_label. induction ps as [|p ps IH]; simpl; [reflexivity |].
  intros H. apply orb_false_iff in H. destruct H as [Hp Hps].
  rewrite Hp. simpl. now apply IH.
Qed.

Lemma tally_absent k (ps : list Post.t) :
  existsb (inb k) ps = false -> tal k ps = Bucket.zero.
Proof.
  intros H. unfold tally. now rewrite !count_label_absent.
Qed.

Lemma tally_snoc_same (ps : list Post.t) (p : Post.t) :
  tal (hour p) (ps ++ [p])
  = Bucket.incr (tal (hour p) ps) (Post.label (Post.sentiment p)).
Proof.
  unfold tally. rewrite !count_label_snoc.
  unfold in_bucket. rewrite key_eqb_refl.
  destruct (Post.label (Post.sentiment p)); simpl; f_equal; lia.
Qed.

Lemma tally_snoc_other k (ps : list Post.t) (p : Post.t) :
  hour p <> k -> tal k (ps ++ [p]) = tal k ps.
Proof.
  intros Hne. unfold tally. rewrite !count_label_snoc.
  unfold in_bucket. apply key_eqb_neq in Hne. rewrite Hne. simpl.
  f_equal; lia.
Qed.

(** The object built by [forEach] holds, under each key that occurs, the
    counters of the posts with that key, and no other key. *)
Lemma buckets_get (ps : list Post.t) k :
  Js.get (buckets ps) k
  = if existsb (inb k) ps then Some (tal k ps) else None.
Proof.
  induction ps as [|p ps IH] using rev_ind; [reflexivity |].
  rewrite buckets_snoc, bucket_post_eq, existsb_app. simpl.
  rewrite orb_false_r.
  destruct (Js.key_eqb (hour p) k) eqn:E.
  - apply key_eqb_eq in E. subst k.
    rewrite get_set_same. unfold in_bucket at 2. rewrite key_eqb_refl.
    rewrite orb_true_r. f_equal. rewrite tally_snoc_same. f_equal.
    unfold bucket_or_zero. rewrite IH.
    destruct (existsb _ ps) eqn:Ex; [reflexivity |].
    now rewrite tally_absent.
  - unfold in_bucket at 2. rewrite E, orb_false_r.
    apply key_eqb_neq in E.
    rewrite get_set_other by assumption. rewrite IH.
    now rewrite tally_snoc_other.
Qed.

Lemma buckets_own_keys (ps : list Post.t) k :
  In k (map fst (buckets ps)) <-> exists p, In p ps /\ hour p = k.
Proof.
  rewrite <- get_Some_iff, buckets_get.
  destruct (existsb (inb k) ps) eqn:Ex.
  - apply existsb_exists in Ex. destruct Ex as [p [Hp Hk]].
    apply key_eqb_eq in Hk. split; eauto.
  - split.
    + intros [v H]. discriminate.
    + intros [p [Hp Hk]]. exfalso.
      assert (existsb (inb k) ps = true).
      { apply existsb_exists. exists p. split; [assumption |].
        now apply key_eqb_eq. }
      congruence.
Qed.

Lemma buckets_NoDup (ps : list Post.t) : NoDup (map fst (buckets ps)).
Proof.
  induction ps as [|p ps IH] using rev_ind; [constructor |].
  rewrite buckets_snoc, bucket_post_eq. now apply NoDup_own_keys_set.
Qed.

Lemma hour_string_key (p : Post.t) (s : string) :
  hour p = Js.StringKey s -> s = "NaN".
Proof.
  unfold Dashboard.hour.
  destruct (Post.created_at p) as [t|]; [destruct (getHours t) |];
    intros H; congruence.
Qed.

(** Every trend point is the tally of its bucket. *)
Lemma trendData_points (posts : list Post.t) :
  trendData posts = map (point posts) (Js.keys (buckets posts)).
Proof.
  unfold Dashboard.trendData. cbv zeta. apply map_ext_in. intros k Hk.
  apply keys_In, buckets_own_keys in Hk. destruct Hk as [p [Hp Hk]].
  unfold Dashboard.trend_point, point_of. rewrite buckets_get.
  assert (Ex : existsb (inb k) posts = true).
  { apply existsb_exists. exists p. split; [assumption |].
    now apply key_eqb_eq. }
  rewrite Ex. reflexivity.
Qed.

Lemma obj_total_buckets (ps : list Post.t) :
  obj_total (buckets ps) = List.length ps.
Proof.
  induction ps as [|p ps IH] using rev_ind; [reflexivity |].
  rewrite buckets_snoc, bucket_post_eq, length_app. simpl.
  pose proof (obj_total_set (buckets ps) (hour p)
                (Bucket.incr (bucket_or_zero (buckets ps) (hour p))
                             (Post.label (Post.sentiment p)))) as H.
  rewrite sum_incr in H. lia.
Qed.

End TrendFacts.

(* ================================================================== *)
(** * The trend of a post list *)

Lemma digits_of_nat_inj (n m : nat) :
  Js.digits_of_nat n = Js.digits_of_nat m -> n = m.
Proof.
  unfold Js.digits_of_nat, Js.digits_of_N. intros H.
  assert (Hnil : forall a : N, N.to_uint a <> Decimal.Nil).
  { intros [|p]; simpl; [discriminate | apply DecimalPos.Unsigned.to_uint_nonnil]. }
  apply (f_equal NilZero.uint_of_string) in H.
  rewrite !NilZero.usu in H by apply Hnil.
  injection H as H. apply DecimalN.Unsigned.to_uint_inj in H.
  apply (f_equal N.to_nat) in H. now rewrite !Nnat.Nat2N.id in H.
Qed.

Lemma StronglySorted_lt_NoDup (l : list nat) :
  StronglySorted lt l -> NoDup l.
Proof.
  induction 1 as [|a l Hs IH Hall]; constructor; [| exact IH].
  intros Hin. rewrite Forall_forall in Hall. apply Hall in Hin. lia.
Qed.

Section TrendClaims.
Variable getHours : string -> option nat.

Local Abbreviation hour := (Dashboard.hour getHours).
Local Abbreviation buckets := (Dashboard.buckets getHours).
Local Abbreviation trendData := (Dashboard.trendData getHours).
Local Abbreviation point := (point_of getHours).

Lemma point_timestamp_inj posts (n m : nat) :
  TrendPoint.timestamp (point posts (Js.IndexKey n))
  = TrendPoint.timestamp (point posts (Js.IndexKey m)) -> n = m.
Proof.
  unfold point_of. simpl. intros H. injection H as H.
  now apply digits_of_nat_inj.
Qed.

(** The only key of the buckets that is not an hour is [NaN], and it is
    there exactly when some post gives no hour. *)
Lemma buckets_string_keys (posts : list Post.t) (s : string) :
  In s (Js.string_keys (buckets posts))
  <-> s = "NaN" /\ exists p, In p posts /\ hour p = Js.StringKey "NaN".
Proof.
  rewrite string_keys_In, buckets_own_keys. split.
  - intros [p [Hp Hk]]. pose proof (hour_string_key getHours p s Hk). subst s.
    eauto.
  - intros [-> H]. exact H.
Qed.

Lemma buckets_no_string_key (posts : list Post.t) :
  Js.string_keys (buckets posts) = []
  <-> forall p, In p posts -> exists h, hour p = Js.IndexKey h.
Proof.
  split.
  - intros E p Hp.
    destruct (hour p) as [h | s] eqn:Hk; [now exists h |].
    exfalso. pose proof (hour_string_key getHours p s Hk). subst s.
    assert (Hin : In "NaN" (Js.string_keys (buckets posts))).
    { apply buckets_string_keys. eauto. }
    rewrite E in Hin. destruct Hin.
  - intros Hall.
    destruct (Js.string_keys (buckets posts)) as [|s l] eqn:E;
      [reflexivity | exfalso].
    assert (Hin : In s (Js.string_keys (buckets posts)))
      by (rewrite E; now left).
    apply buckets_string_keys in Hin. destruct Hin as [_ [p [Hp Hk]]].
    destruct (Hall p Hp) as [h Hh]. congruence.
Qed.

(** C4.  For posts with a parseable timestamp the trend has exactly one
    bucket per hour of day that occurs in the list (its timestamps are
    pairwise distinct; the hours are below 24 when the host's are), and the
    bucket of an hour counts, per label, the posts of that hour (0 for a
    label no post of the hour carries).  The
    empty list gives no bucket; two posts in hour 10 (positive, negative)
    and one in hour 14 (neutral) give the two buckets [1,1,0] and [0,0,1]. *)
Theorem trend_one_bucket_per_hour :
  (forall posts : list Post.t,
      (forall p, In p posts -> exists h, hour p = Js.IndexKey h) ->
      exists hs : list nat,
        trendData posts = map (fun h => point posts (Js.IndexKey h)) hs
        /\ NoDup hs
        /\ (forall h, In h hs
                      <-> exists p, In p posts /\ hour p = Js.IndexKey h)
        /\ NoDup (map TrendPoint.timestamp (trendData posts))
        /\ ((forall t h, getHours t = Some h -> h < 24) ->
            forall h, In h hs -> h < 24))
  /\ trendData [] = []
  /\ (forall a b c : Post.t,
        hour a = Js.IndexKey 10 -> Post.label (Post.sentiment a) = Positive ->
        hour b = Js.IndexKey 10 -> Post.label (Post.sentiment b) = Negative ->
        hour c = Js.IndexKey 14 -> Post.label (Post.sentiment c) = Neutral ->
        trendData [a; b; c]
        = [TrendPoint.mk "Hour 10" 1 1 0; TrendPoint.mk "Hour 14" 0 0 1]).
Proof.
  split; [| split].
  - intros posts Hall.
    set (hs := Js.index_keys (buckets posts)).
    assert (Heq : trendData posts
                  = map (fun h => point posts (Js.IndexKey h)) hs).
    { rewrite trendData_points. unfold Js.keys.
      apply buckets_no_string_key in Hall. rewrite Hall. simpl.
      now rewrite app_nil_r, map_map. }
    assert (Hnd : NoDup hs)
      by apply StronglySorted_lt_NoDup, index_keys_sorted, buckets_NoDup.
    assert (Hin : forall h, In h hs
                   <-> exists p, In p posts /\ hour p = Js.IndexKey h).
    { intros h. unfold hs. now rewrite index_keys_In, buckets_own_keys. }
    exists hs. split; [assumption |]. split; [assumption |].
    split; [assumption |]. split.
    + rewrite Heq, map_map.
      clear -Hnd. induction Hnd as [|h hs Hnot Hnd IH]; simpl; constructor.
      * rewrite in_map_iff. intros [m [Hm Hin]].
        apply (point_timestamp_inj posts) in Hm. subst m. contradiction.
      * exact IH.
    + intros Hrange h Hh. apply Hin in Hh. destruct Hh as [p [_ Hk]].
      unfold Dashboard.hour in Hk.
      destruct (Post.created_at p) as [t|]; [| discriminate].
      destruct (getHours t) as [h'|] eqn:Ht; [| discriminate].
      injection Hk as ->. now apply (Hrange t).
  - reflexivity.
  - intros a b c Ha La Hb Lb Hc Lc.
    unfold Dashboard.trendData, Dashboard.buckets. simpl.
    unfold Dashboard.bucket_post. rewrite Ha, Hb, Hc, La, Lb, Lc.
    reflexivity.
Qed.

End TrendClaims.

Lemma trend_one_bucket_per_hour_witness :
  Dashboard.trendData iso_hours example_posts
  = [TrendPoint.mk "Hour 10" 1 1 0; TrendPoint.mk "Hour 14" 0 0 1].
Proof.
  apply (proj2 (proj2 (trend_one_bucket_per_hour iso_hours))); reflexivity.
Defined.


Section TrendOrderAndSum.
Variable getHours : string -> option nat.

Local Abbreviation hour := (Dashboard.hour getHours).
Local Abbreviation buckets := (Dashboard.buckets getHours).
Local Abbreviation trendData := (Dashboard.trendData getHours).
Local Abbreviation point := (point_of getHours).

(** C5.  The counters of all trend buckets add up to the number of posts. *)
Theorem trend_counts_sum (posts : list Post.t) :
  list_sum (map TrendPoint.sum (trendData posts)) = List.length posts.
Proof.
  unfold Dashboard.trendData. cbv zeta. rewrite map_map.
  rewrite (map_ext _ (fun k => Bucket.sum (bucket_or_zero (buckets posts) k)))
    by reflexivity.
  rewrite (list_sum_perm _ _
             (Permutation_map _ (keys_perm (buckets posts)))).
  rewrite <- (map_map (bucket_or_zero (buckets posts)) Bucket.sum).
  rewrite values_by_own_keys by apply buckets_NoDup.
  rewrite map_map. apply obj_total_buckets.
Qed.

(** C10.  The buckets that have an hour of day as key come first in the
    trend, one per hour that occurs, in strictly ascending order of the hour;
    the only other bucket there can be, the one of the posts whose timestamp
    gives no hour (key [NaN]), comes last, and it is there only when such a
    post is. *)
Theorem trend_hours_ascending (posts : list Post.t) :
  exists (hs : list nat) (rest : list TrendPoint.t),
    trendData posts
    = (map (fun h => point posts (Js.IndexKey h)) hs ++ rest)%list
    /\ StronglySorted lt hs
    /\ (forall h, In h hs <-> exists p, In p posts /\ hour p = Js.IndexKey h)
    /\ (rest = [] \/ rest = [point posts (Js.StringKey "NaN")])
    /\ (rest = [] <-> forall p, In p posts -> exists h, hour p = Js.IndexKey h).
Proof.
  exists (Js.index_keys (buckets posts)),
         (map (point posts) (map Js.StringKey (Js.string_keys (buckets posts)))).
  split; [| split; [| split; [| split]]].
  - rewrite trendData_points. unfold Js.keys.
    now rewrite map_app, map_map.
  - apply index_keys_sorted, buckets_NoDup.
  - intros h. now rewrite index_keys_In, buckets_own_keys.
  - destruct (NoDup_all_equal "NaN" (Js.string_keys (buckets posts)))
      as [E | E].
    + apply NoDup_string_keys, buckets_NoDup.
    + intros s Hs. now apply buckets_string_keys in Hs.
    + left. now rewrite E.
    + right. now rewrite E.
  - rewrite <- buckets_no_string_key.
    destruct (Js.string_keys (buckets posts)); simpl; split;
      intros H; try reflexivity; discriminate H.
Qed.

End TrendOrderAndSum.

(** The trend of posts in hours 14, 9 and 14 lists hour 9 before hour 14. *)
Example trend_sorted_example :
  Dashboard.trendData iso_hours
    [ Post.mk "a" "x" (Some "2024-03-05T14:15:00") (Post.mkSentiment Positive);
      Post.mk "b" "y" (Some "2024-03-05T09:40:00") (Post.mkSentiment Negative);
      Post.mk "c" "z" (Some "2024-03-06T14:05:00") (Post.mkSentiment Neutral);
      Post.mk "d" "w" None (Post.mkSentiment Neutral) ]
  = [ TrendPoint.mk "Hour 9" 0 1 0; TrendPoint.mk "Hour 14" 1 0 1;
      TrendPoint.mk "Hour NaN" 0 0 1 ].
Proof. reflexivity. Qed.

(* ================================================================== *)
(** * Properties of the [Dashboard] callbacks *)

Section DashboardFacts.
Variable getHours : string -> option nat.
Import Dashboard.

Local Abbreviation handle := (Dashboard.handle getHours).
Local Abbreviation step := (Dashboard.step getHours).
Local Abbreviation run := (Dashboard.run getHours).
Local Abbreviation writes := (Dashboard.writes getHours).

Implicit Types (s : State) (e : Event) (c : SetterCall).

(** Case analysis on an event down to what decides the setter calls. *)
Ltac by_event e :=
  destruct e as [ [ | ? [ [ | [?] ] | ] ] | [ | ? [ [ | [ [?|] ] ] | ] ]
                | [ [?|?] ] ? | | ].

(** The setter calls of each callback. *)
Lemma calls_of_event e :
  Run.calls (handle e)
  = match e with
    | DistributionSettled (Api.Response _ (Some (Api.JsonValue d))) =>
        [setDistribution (Api.distribution d)]
    | PostsSettled (Api.Response _ (Some (Api.JsonValue d))) =>
        match Api.posts d with
        | Some ps => [setPosts (Some ps);
                      setTrend (Dashboard.trendData getHours ps)]
        | None => [setPosts None]
        end
    | ChannelMessage ev now =>
        match Api.data ev with
        | Js.JsonText _ => [setStatus connected; setLastUpdate now]
        | Js.OtherText _ => []
        end
    | ChannelError | ChannelClose => [setStatus disconnected]
    | _ => []
    end.
Proof. by_event e; reflexivity. Qed.

(** The status after a callback depends on the status before it and on the
    event only. *)
Lemma status_step_congr s1 s2 e :
  status s1 = status s2 -> status (step s1 e) = status (step s2 e).
Proof.
  intros H. unfold Dashboard.step. rewrite calls_of_event.
  by_event e; simpl; auto.
Qed.

Lemma status_step_rest s e :
  is_channel_callback e = false -> status (step s e) = status s.
Proof.
  intros H. unfold Dashboard.step. rewrite calls_of_event.
  by_event e; simpl; auto; discriminate.
Qed.

Lemma status_fold_channel_only (trace : list Event) s1 s2 :
  status s1 = status s2 ->
  status (fold_left step trace s1)
  = status (fold_left step (filter is_channel_callback trace) s2).
Proof.
  revert s1 s2. induction trace as [|e trace IH]; intros s1 s2 H; simpl.
  - exact H.
  - destruct (is_channel_callback e) eqn:E; simpl.
    + apply IH. now apply status_step_congr.
    + apply IH. now rewrite status_step_rest.
Qed.

Lemma status_fold_no_message (trace : list Event) s :
  status s = disconnected ->
  (forall e, In e trace ->
             match e with ChannelMessage _ _ => False | _ => True end) ->
  status (fold_left step trace s) = disconnected.
Proof.
  revert s. induction trace as [|e trace IH]; intros s Hs Hno; simpl.
  - exact Hs.
  - apply IH.
    + pose proof (Hno e (or_introl eq_refl)) as He.
      unfold Dashboard.step. rewrite calls_of_event.
      by_event e; simpl; auto; contradiction.
    + intros e' He'. apply Hno. now right.
Qed.

(** C2 (as the code has it).  The status starts at [connecting]; a channel
    message with JSON data sets it to [connected] whatever it was, a channel
    error or close sets it to [disconnected]; it never returns to
    [connecting] once left; from [disconnected] the only event that changes
    it is a channel message with JSON data, which sets it back to
    [connected]; in particular it stays [disconnected] as long as no channel
    message follows. *)
Theorem status_transitions :
  status initial = connecting
  /\ (forall s v now,
        status (step s (ChannelMessage (Api.mkMessageEvent (Js.JsonText v)) now))
        = connected)
  /\ (forall s, status (step s ChannelError) = disconnected
                /\ status (step s ChannelClose) = disconnected)
  /\ (forall s e, status s <> connecting -> status (step s e) <> connecting)
  /\ (forall s e, status s = disconnected ->
        status (step s e) = disconnected
        \/ exists v now,
             e = ChannelMessage (Api.mkMessageEvent (Js.JsonText v)) now
             /\ status (step s e) = connected)
  /\ (forall (before after : list Event),
        status (run before) = disconnected ->
        (forall e, In e after ->
                   match e with ChannelMessage _ _ => False | _ => True end) ->
        status (run (before ++ after)) = disconnected).
Proof.
  split; [reflexivity |].
  split; [reflexivity |].
  split; [intros s; split; reflexivity |].
  split; [| split].
  - intros s e Hs. unfold Dashboard.step. rewrite calls_of_event.
    by_event e; simpl; auto; discriminate.
  - intros s e Hs. unfold Dashboard.step. rewrite calls_of_event.
    by_event e; simpl; auto. right. eauto.
  - intros before after Hb Hno. unfold Dashboard.run.
    rewrite fold_left_app. now apply status_fold_no_message.
Qed.


(** C7 (as the code has it).  A channel message whose data is not JSON calls
    no setter and leaves the state as it was, and the [SyntaxError] of
    [JSON.parse] leaves the message callback. *)
Theorem malformed_message_throws (s : State) (raw now : string) :
  let e := ChannelMessage (Api.mkMessageEvent (Js.OtherText raw)) now in
  Run.calls (handle e) = []
  /\ Run.completion (handle e) = inl Js.SyntaxError
  /\ step s e = s.
Proof. repeat split. Qed.

(** C8.  A channel message leaves the distribution, the post list and the
    trend as they were; its callback calls [setStatus("connected")] and
    [setLastUpdate], or no setter at all. *)
Theorem message_changes_status_only (s : State) (ev : Api.MessageEvent)
    (now : string) :
  let s' := step s (ChannelMessage ev now) in
  distribution s' = distribution s
  /\ posts s' = posts s
  /\ trend s' = trend s
  /\ ((Run.calls (handle (ChannelMessage ev now))
       = [setStatus connected; setLastUpdate now]
       /\ status s' = connected /\ lastUpdate s' = now)
      \/ (Run.calls (handle (ChannelMessage ev now)) = [] /\ s' = s)).
Proof.
  destruct ev as [[v|raw]]; cbv zeta; repeat split.
  - left. repeat split.
  - right. repeat split.
Qed.

Lemma writes_In (trace : list Event) e c :
  In (e, c) (writes trace) <-> In e trace /\ In c (Run.calls (handle e)).
Proof.
  unfold Dashboard.writes. rewrite in_flat_map. split.
  - intros [e' [He' Hin]]. apply in_map_iff in Hin.
    destruct Hin as [c' [Heq Hc']]. injection Heq as -> ->. auto.
  - intros [He Hc]. exists e. split; [assumption |].
    apply in_map_iff. eauto.
Qed.

(** C9.  Every call of [setStatus] in a run of the component is made by one
    of the three channel callbacks; a settled fetch leaves the status as it
    was, and the status of a reachable state is the one the channel events
    alone produce. *)
Theorem status_written_by_channel_only :
  (forall (trace : list Event) e c,
      In (e, c) (writes trace) -> writes_status c = true ->
      is_channel_callback e = true)
  /\ (forall s x, status (step s (DistributionSettled x)) = status s)
  /\ (forall s x, status (step s (PostsSettled x)) = status s)
  /\ (forall trace : list Event,
        status (run trace) = status (run (filter is_channel_callback trace))).
Proof.
  split; [| split; [| split]].
  - intros trace e c Hin Hc. apply writes_In in Hin. destruct Hin as [_ Hin].
    rewrite calls_of_event in Hin.
    by_event e; simpl in Hin; try reflexivity;
      repeat (destruct Hin as [<- | Hin]; try discriminate); destruct Hin.
  - intros s x. now apply status_step_rest.
  - intros s x. now apply status_step_rest.
  - intros trace. unfold Dashboard.run. now apply status_fold_channel_only.
Qed.

End DashboardFacts.

(* ================================================================== *)
(** * The callbacks on concrete runs *)

Section DashboardExamples.
Import Dashboard.

(** C2 (as stated) fails: a channel message that arrives after a channel
    error moves the status from [disconnected] back to [connected]. *)
Lemma message_after_error_reconnects :
  status (run iso_hours [ChannelError]) = disconnected
  /\ status (run iso_hours [ChannelError; ChannelMessage example_message "10:00:00"])
     = connected.
Proof. split; reflexivity. Qed.

Lemma status_transitions_witness :
  status (run iso_hours [ChannelMessage example_message "10:00:00"; ChannelError])
  = disconnected
  /\ status (run iso_hours
               ([ChannelMessage example_message "10:00:00"; ChannelError]
                ++ [PostsSettled Api.NetworkError; ChannelClose]))
     = disconnected.
Proof.
  split.
  - reflexivity.
  - apply (proj2 (proj2 (proj2 (proj2 (proj2 (status_transitions iso_hours)))))).
    + reflexivity.
    + intros e [<- | [<- | []]]; exact I.
Defined.


(** C7 (as stated) fails: the callback does not return, it throws. *)
Lemma malformed_message_raises :
  Run.completion
    (handle iso_hours
       (ChannelMessage (Api.mkMessageEvent (Js.OtherText "ping")) "10:00:00"))
  = inl Js.SyntaxError
  /\ Run.completion
       (handle iso_hours
          (ChannelMessage (Api.mkMessageEvent (Js.OtherText "ping")) "10:00:00"))
     <> inr tt.
Proof. split; [reflexivity | discriminate]. Qed.

Lemma status_written_by_channel_only_witness :
  In (ChannelMessage example_message "10:00:00", setStatus connected)
     (writes iso_hours
        [DistributionSettled
           (Api.Response 200
              (Some (Api.JsonValue
                       (Api.mkDistributionBody (Some (Distribution.mk 45 12 20))))));
         ChannelMessage example_message "10:00:00"])
  /\ is_channel_callback (ChannelMessage example_message "10:00:00") = true.
Proof.
  assert (Hin : In (ChannelMessage example_message "10:00:00", setStatus connected)
                   (writes iso_hours
                      [DistributionSettled
                         (Api.Response 200
                            (Some (Api.JsonValue
                                     (Api.mkDistributionBody
                                        (Some (Distribution.mk 45 12 20))))));
                       ChannelMessage example_message "10:00:00"])).
  { simpl. right. left. reflexivity. }
  split; [exact Hin |].
  exact (proj1 (status_written_by_channel_only iso_hours) _ _ _ Hin eq_refl).
Defined.

(** A run of the component: both fetches succeed, a message arrives, the
    channel closes. *)
Example dashboard_run :
  run iso_hours
    [PostsSettled
       (Api.Response 200
          (Some (Api.JsonValue (Api.mkPostsBody (Some example_posts)))));
     DistributionSettled
       (Api.Response 200
          (Some (Api.JsonValue
                       (Api.mkDistributionBody (Some (Distribution.mk 45 12 20))))));
     ChannelMessage example_message "10:00:00";
     ChannelClose]
  = mkState (Some (Distribution.mk 45 12 20)) (Some example_posts)
      [TrendPoint.mk "Hour 10" 1 1 0; TrendPoint.mk "Hour 14" 0 0 1]
      disconnected "10:00:00".
Proof. reflexivity. Qed.

End DashboardExamples.

(* ================================================================== *)
(** * More on the trend computation *)

Lemma filter_length_perm {A : Type} (f : A -> bool) (l l' : list A) :
  Permutation l l' -> List.length (filter f l) = List.length (filter f l').
Proof.
  induction 1 as [| x l l' _ IH | x y l | l l' l'' _ IH1 _ IH2]; simpl.
  - reflexivity.
  - destruct (f x); simpl; congruence.
  - destruct (f x), (f y); reflexivity.
  - congruence.
Qed.

(** Two strictly ascending lists with the same elements are the same list. *)
Lemma sorted_lt_unique (l l' : list nat) :
  StronglySorted lt l -> StronglySorted lt l' ->
  (forall x, In x l <-> In x l') -> l = l'.
Proof.
  intros Hl. revert l'.
  induction Hl as [|a l Hl IH Ha]; intros l' Hl' Hmem.
  - destruct l' as [|b l']; [reflexivity |].
    exfalso. apply (proj2 (Hmem b)). now left.
  - destruct Hl' as [|b l' Hl' Hb].
    + exfalso. apply (proj1 (Hmem a)). now left.
    + rewrite Forall_forall in Ha, Hb.
      assert (a = b).
      { destruct (proj1 (Hmem a) (or_introl eq_refl)) as [E | Hin];
          [now symmetry |].
        destruct (proj2 (Hmem b) (or_introl eq_refl)) as [E | Hin'];
          [assumption |].
        apply Hb in Hin. apply Ha in Hin'. lia. }
      subst b. f_equal. apply IH; [assumption |].
      intros x. split; intros Hx.
      * destruct (proj1 (Hmem x) (or_intror Hx)) as [E | Hin];
          [| assumption].
        apply Ha in Hx. lia.
      * destruct (proj2 (Hmem x) (or_intror Hx)) as [E | Hin];
          [| assumption].
        apply Hb in Hx. lia.
Qed.

(** A strictly ascending list of numbers in [[lo, n)] has at most [n - lo]
    elements. *)
Lemma sorted_lt_length (l : list nat) :
  StronglySorted lt l -> forall lo n,
  (forall x, In x l -> lo <= x < n) -> List.length l <= n - lo.
Proof.
  induction 1 as [|a l Hl IH Ha]; intros lo n Hr; simpl; [lia |].
  rewrite Forall_forall in Ha.
  pose proof (Hr a (or_introl eq_refl)) as Hra.
  assert (H : List.length l <= n - S a).
  { apply IH. intros x Hx. pose proof (Ha x Hx). pose proof (Hr x (or_intror Hx)).
    lia. }
  lia.
Qed.

Lemma length_set_le {V : Type} (o : Js.Object V) k v :
  List.length (Js.set o k v) <= S (List.length o).
Proof.
  induction o as [|[k0 v0] o IH]; simpl; [lia |].
  destruct (Js.key_eqb k k0); simpl; lia.
Qed.

Section TrendMore.
Variable getHours : string -> option nat.

Local Abbreviation hour := (Dashboard.hour getHours).
Local Abbreviation buckets := (Dashboard.buckets getHours).
Local Abbreviation trendData := (Dashboard.trendData getHours).
Local Abbreviation point := (point_of getHours).
Local Abbreviation tkey := (trend_key getHours).

Lemma count_label_by_key k l (ps : list Post.t) :
  count_label getHours k l ps
  = List.length (filter (fun s => Js.key_eqb (fst s) k && label_eqb (snd s) l)
                        (map tkey ps)).
Proof.
  unfold count_label, in_bucket. induction ps as [|p ps IH]; simpl;
    [reflexivity |].
  destruct (_ && _); simpl; congruence.
Qed.

Lemma hour_occurs_by_key k (ps : list Post.t) :
  (exists p, In p ps /\ hour p = k) <-> In k (map fst (map tkey ps)).
Proof.
  rewrite map_map. simpl. rewrite in_map_iff. split.
  - intros [p [Hp Hk]]. eauto.
  - intros [p [Hk Hp]]. eauto.
Qed.

Lemma count_label_present (ps : list Post.t) (p : Post.t) :
  In p ps -> 1 <= count_label getHours (hour p) (Post.label (Post.sentiment p)) ps.
Proof.
  unfold count_label, in_bucket. induction ps as [|q ps IH]; simpl;
    [tauto |].
  intros [-> | Hin].
  - rewrite key_eqb_refl.
    assert (E : label_eqb (Post.label (Post.sentiment p))
                          (Post.label (Post.sentiment p)) = true)
      by now destruct (Post.label (Post.sentiment p)).
    rewrite E. simpl. lia.
  - specialize (IH Hin). destruct (_ && _); simpl; lia.
Qed.

Lemma length_buckets (ps : list Post.t) :
  List.length (buckets ps) <= List.length ps.
Proof.
  induction ps as [|p ps IH] using rev_ind; [reflexivity |].
  rewrite buckets_snoc, bucket_post_eq, length_app. simpl.
  pose proof (length_set_le (buckets ps) (hour p)
                (Bucket.incr (bucket_or_zero (buckets ps) (hour p))
                             (Post.label (Post.sentiment p)))).
  lia.
Qed.

Lemma length_trendData (ps : list Post.t) :
  List.length (trendData ps) = List.length (buckets ps).
Proof.
  unfold Dashboard.trendData. cbv zeta. rewrite length_map.
  rewrite (Permutation_length (keys_perm (buckets ps))).
  apply length_map.
Qed.

(** X1.  The trend depends on the posts only through the hour and the label
    of each post, and not on their order: two post lists with the same
    (hour, label) pairs up to order have the same trend.  Identifiers,
    contents and calendar days play no part. *)
Theorem trend_depends_on_hour_and_label (ps ps' : list Post.t) :
  Permutation (map tkey ps) (map tkey ps') -> trendData ps = trendData ps'.
Proof.
  intros Hperm.
  assert (Hmem : forall k, In k (map fst (buckets ps))
                           <-> In k (map fst (buckets ps'))).
  { intros k. rewrite !buckets_own_keys, !hour_occurs_by_key.
    split; apply Permutation_in; apply Permutation_map;
      [assumption | now apply Permutation_sym]. }
  assert (Hkeys : Js.keys (buckets ps) = Js.keys (buckets ps')).
  { unfold Js.keys. f_equal; f_equal.
    - apply sorted_lt_unique;
        try (apply index_keys_sorted, buckets_NoDup).
      intros h. now rewrite !index_keys_In.
    - assert (Hs : forall s, In s (Js.string_keys (buckets ps))
                             <-> In s (Js.string_keys (buckets ps'))).
      { intros s. now rewrite !string_keys_In. }
      destruct (NoDup_all_equal "NaN" (Js.string_keys (buckets ps)))
        as [E | E];
        [apply NoDup_string_keys, buckets_NoDup
        | intros s Hin; now apply buckets_string_keys in Hin | |];
        destruct (NoDup_all_equal "NaN" (Js.string_keys (buckets ps')))
          as [E' | E'];
        try (apply NoDup_string_keys, buckets_NoDup);
        try (intros s Hin; now apply buckets_string_keys in Hin);
        rewrite E, E' in *; try reflexivity; exfalso.
      + apply (proj2 (Hs "NaN")). now left.
      + apply (proj1 (Hs "NaN")). now left. }
  rewrite !trendData_points, Hkeys. apply map_ext. intros k.
  unfold point_of. rewrite !count_label_by_key.
  now rewrite !(filter_length_perm _ _ _ Hperm).
Qed.

Lemma trendData_nil_iff (ps : list Post.t) : trendData ps = [] <-> ps = [].
Proof.
  split.
  - intros H. destruct ps as [|p ps]; [reflexivity | exfalso].
    assert (Hin : In (hour p) (map fst (buckets (p :: ps)))).
    { apply buckets_own_keys. exists p. split; [now left | reflexivity]. }
    apply (f_equal (@List.length _)) in H. rewrite length_trendData in H.
    destruct (buckets (p :: ps)); [destruct Hin | discriminate H].
  - intros ->. reflexivity.
Qed.

(** X2.  The trend chart shows "No trend data" exactly when the post list
    is empty: any post, even one whose timestamp does not parse, gives a
    bucket. *)
Theorem no_trend_data_iff_no_posts (ps : list Post.t) :
  SentimentChart.SentimentChart (trendData ps) = SentimentChart.NoTrendData
  <-> ps = [].
Proof.
  rewrite <- trendData_nil_iff. unfold SentimentChart.SentimentChart.
  destruct (trendData ps) as [|pt l]; simpl; split; intros H;
    try reflexivity; discriminate H.
Qed.

(** X3.  No bucket of the trend is empty: the three counters of every trend
    point add up to at least 1. *)
Theorem trend_points_nonempty (ps : list Post.t) (pt : TrendPoint.t) :
  In pt (trendData ps) -> 1 <= TrendPoint.sum pt.
Proof.
  rewrite trendData_points, in_map_iff. intros [k [<- Hk]].
  apply keys_In, buckets_own_keys in Hk. destruct Hk as [p [Hp <-]].
  pose proof (count_label_present ps p Hp) as Hc.
  unfold point_of, TrendPoint.sum. simpl.
  destruct (Post.label (Post.sentiment p)); lia.
Qed.

(** X4.  The trend never has more points than there are posts, and when the
    host's hours are below 24 it has at most 25 points (24 hours and the
    bucket of the posts without an hour), however long the post list is. *)
Theorem trend_size_bounds (ps : list Post.t) :
  List.length (trendData ps) <= List.length ps
  /\ ((forall t h, getHours t = Some h -> h < 24) ->
      List.length (trendData ps) <= 25).
Proof.
  split.
  - rewrite length_trendData. apply length_buckets.
  - intros Hrange. unfold Dashboard.trendData. cbv zeta.
    rewrite length_map. unfold Js.keys. rewrite length_app, !length_map.
    assert (Hi : List.length (Js.index_keys (buckets ps)) <= 24 - 0).
    { apply sorted_lt_length; [apply index_keys_sorted, buckets_NoDup |].
      intros h Hh. apply index_keys_In, buckets_own_keys in Hh.
      destruct Hh as [p [_ Hk]]. unfold Dashboard.hour in Hk.
      destruct (Post.created_at p) as [t|]; [| discriminate].
      destruct (getHours t) as [h'|] eqn:Ht; [| discriminate].
      injection Hk as ->. pose proof (Hrange t h Ht). lia. }
    assert (Hs : List.length (Js.string_keys (buckets ps)) <= 1).
    { destruct (NoDup_all_equal "NaN" (Js.string_keys (buckets ps)))
        as [E | E];
        [apply NoDup_string_keys, buckets_NoDup
        | intros s Hin; now apply buckets_string_keys in Hin | |];
        rewrite E; simpl; lia. }
    lia.
Qed.

End TrendMore.

(* ================================================================== *)
(** * More on the [Dashboard] state *)

Section DashboardMore.
Variable getHours : string -> option nat.
Import Dashboard.

Local Abbreviation handle := (Dashboard.handle getHours).
Local Abbreviation step := (Dashboard.step getHours).
Local Abbreviation run := (Dashboard.run getHours).
Local Abbreviation trendData := (Dashboard.trendData getHours).

Implicit Types (s : State) (e : Event).

Ltac by_event' e :=
  destruct e as [ [ | ? [ [ | [?] ] | ] ] | [ | ? [ [ | [ [?|] ] ] | ] ]
                | [ [?|?] ] ? | | ].

Lemma run_snoc (trace : list Event) e :
  run (trace ++ [e]) = step (run trace) e.
Proof. unfold Dashboard.run. now rewrite fold_left_app. Qed.

(** The state after one callback, field by field. *)
Lemma step_fields s e :
  step s e
  = mkState
      match e with
      | DistributionSettled (Api.Response _ (Some (Api.JsonValue d))) => Api.distribution d
      | _ => distribution s
      end
      match e with
      | PostsSettled (Api.Response _ (Some (Api.JsonValue d))) => Api.posts d
      | _ => posts s
      end
      match e with
      | PostsSettled (Api.Response _ (Some (Api.JsonValue d))) =>
          match Api.posts d with
          | Some ps => trendData ps
          | None => trend s
          end
      | _ => trend s
      end
      match DashboardView.sets_status e with
      | Some st => st
      | None => status s
      end
      match DashboardView.sets_last_update e with
      | Some now => now
      | None => lastUpdate s
      end.
Proof.
  unfold Dashboard.step. rewrite calls_of_event.
  destruct s; by_event' e; reflexivity.
Qed.

Lemma sets_status_calls e st :
  DashboardView.sets_status e = Some st
  <-> In (setStatus st) (Run.calls (handle e)).
Proof.
  rewrite calls_of_event.
  by_event' e; simpl; split; intros H; try discriminate H;
    repeat (destruct H as [H | H]; try discriminate H); try (now destruct H).
  - injection H as <-. auto.
  - injection H as <-. reflexivity.
  - injection H as <-. auto.
  - injection H as <-. reflexivity.
  - injection H as <-. auto.
  - injection H as <-. reflexivity.
Qed.

Lemma sets_last_update_calls e now :
  DashboardView.sets_last_update e = Some now
  <-> In (setLastUpdate now) (Run.calls (handle e)).
Proof.
  rewrite calls_of_event.
  by_event' e; simpl; split; intros H; try discriminate H;
    repeat (destruct H as [H | H]; try discriminate H); try (now destruct H).
  - injection H as <-. auto.
  - injection H as <-. reflexivity.
Qed.

Lemma step_keeps_trend s e :
  (forall ps, posts s = Some ps -> trend s = trendData ps) ->
  forall ps, posts (step s e) = Some ps -> trend (step s e) = trendData ps.
Proof.
  intros Inv ps. rewrite step_fields. simpl.
  destruct e as [x | [ | code [ [ | [ [qs|] ] ] | ] ] | ev now | | ]; simpl;
    try apply Inv.
  - intros H. injection H as <-. reflexivity.
  - discriminate.
Qed.

(** X5.  In every reachable state in which the post list is defined, the
    stored trend is the trend of the stored post list: the chart never shows
    buckets of an older batch next to a newer list. *)
Theorem trend_follows_posts (trace : list Event) (ps : list Post.t) :
  posts (run trace) = Some ps -> trend (run trace) = trendData ps.
Proof.
  revert ps. induction trace as [|e trace IH] using rev_ind.
  - simpl. intros ps H. injection H as <-. reflexivity.
  - rewrite run_snoc. now apply step_keeps_trend.
Qed.

(** X6.  The two fetch completions can arrive in either order: the state
    after both is the same.  Each of them also commutes with every channel
    callback. *)
Theorem completions_commute s x y :
  step (step s (DistributionSettled x)) (PostsSettled y)
  = step (step s (PostsSettled y)) (DistributionSettled x)
  /\ (forall e, is_channel_callback e = true ->
        step (step s (DistributionSettled x)) e
        = step (step s e) (DistributionSettled x)
        /\ step (step s (PostsSettled y)) e
           = step (step s e) (PostsSettled y)).
Proof.
  split.
  - rewrite !step_fields. simpl. reflexivity.
  - intros e He. rewrite !step_fields. simpl.
    destruct e; try discriminate; split; reflexivity.
Qed.

(** X7.  What each callback leaves alone: the distribution completion
    changes nothing but the distribution; the posts completion leaves the
    distribution, the status and the last-update time; a channel error or
    close changes nothing but the status. *)
Theorem callbacks_frame s :
  (forall x, let s' := step s (DistributionSettled x) in
             posts s' = posts s /\ trend s' = trend s
             /\ status s' = status s /\ lastUpdate s' = lastUpdate s)
  /\ (forall y, let s' := step s (PostsSettled y) in
                distribution s' = distribution s
                /\ status s' = status s /\ lastUpdate s' = lastUpdate s)
  /\ (forall e, e = ChannelError \/ e = ChannelClose ->
                let s' := step s e in
                distribution s' = distribution s /\ posts s' = posts s
                /\ trend s' = trend s /\ lastUpdate s' = lastUpdate s).
Proof.
  split; [| split].
  - intros x s'. subst s'. rewrite step_fields. simpl. auto.
  - intros y s'. subst s'. rewrite step_fields. simpl. auto.
  - intros e [-> | ->] s'; subst s'; rewrite step_fields; simpl; auto.
Qed.

Lemma status_fold_quiet (trace : list Event) s :
  (forall e, In e trace -> DashboardView.sets_status e = None) ->
  status (fold_left step trace s) = status s.
Proof.
  revert s. induction trace as [|e trace IH]; intros s Hq; simpl;
    [reflexivity |].
  rewrite IH by (intros e' He'; apply Hq; now right).
  rewrite step_fields. simpl. now rewrite (Hq e (or_introl eq_refl)).
Qed.

Lemma lastUpdate_fold_quiet (trace : list Event) s :
  (forall e, In e trace -> DashboardView.sets_last_update e = None) ->
  lastUpdate (fold_left step trace s) = lastUpdate s.
Proof.
  revert s. induction trace as [|e trace IH]; intros s Hq; simpl;
    [reflexivity |].
  rewrite IH by (intros e' He'; apply Hq; now right).
  rewrite step_fields. simpl. now rewrite (Hq e (or_introl eq_refl)).
Qed.

(** X8.  The status shown is the one set by the most recent channel callback
    that set it (connected for a message with JSON data, disconnected for an
    error or a close), whatever happened before and whatever fetch
    completions or malformed messages came after; it is [connecting] as long
    as there was none. *)
Theorem status_is_last_channel_outcome :
  (forall trace : list Event,
      (forall e, In e trace -> DashboardView.sets_status e = None) ->
      status (run trace) = connecting)
  /\ (forall (before after : list Event) e st,
        DashboardView.sets_status e = Some st ->
        (forall e', In e' after -> DashboardView.sets_status e' = None) ->
        status (run (before ++ e :: after)) = st).
Proof.
  split.
  - intros trace Hq. unfold Dashboard.run. now rewrite status_fold_quiet.
  - intros before after e st He Hq. unfold Dashboard.run.
    rewrite fold_left_app. simpl. rewrite status_fold_quiet by assumption.
    rewrite step_fields. simpl. now rewrite He.
Qed.

(** X9.  The last-update time shown is the clock reading of the most recent
    channel message with JSON data; it is ["--"] as long as there was none.
    Errors, closes, malformed messages and fetch completions never change
    it. *)
Theorem last_update_is_last_message_clock :
  (forall trace : list Event,
      (forall e, In e trace -> DashboardView.sets_last_update e = None) ->
      lastUpdate (run trace) = "--")
  /\ (forall (before after : list Event) e now,
        DashboardView.sets_last_update e = Some now ->
        (forall e', In e' after -> DashboardView.sets_last_update e' = None) ->
        lastUpdate (run (before ++ e :: after)) = now).
Proof.
  split.
  - intros trace Hq. unfold Dashboard.run. now rewrite lastUpdate_fold_quiet.
  - intros before after e now He Hq. unfold Dashboard.run.
    rewrite fold_left_app. simpl. rewrite lastUpdate_fold_quiet by assumption.
    rewrite step_fields. simpl. now rewrite He.
Qed.

(** X10.  The dashboard renders without an exception exactly when the stored
    distribution and post list are both defined, and that is the case in
    every reachable state as long as every JSON body received had the
    property its callback reads. *)
Theorem render_succeeds :
  (forall s, (exists v, DashboardView.render s = inr v)
             <-> (distribution s <> None /\ posts s <> None))
  /\ (forall s, DashboardView.render s = inl Js.TypeError
                \/ exists v, DashboardView.render s = inr v)
  /\ (forall trace : list Event,
        (forall e, In e trace -> DashboardView.body_complete e = true) ->
        exists v, DashboardView.render (run trace) = inr v).
Proof.
  assert (Hiff : forall s, (exists v, DashboardView.render s = inr v)
                           <-> (distribution s <> None /\ posts s <> None)).
  { intros s. unfold DashboardView.render, LiveFeed.LiveFeed.
    destruct (distribution s) as [d|], (posts s) as [ps|]; split;
      try (intros [v H]; discriminate H);
      try (intros [H1 H2]; congruence).
    - intros _. split; discriminate.
    - intros _. eauto. }
  split; [exact Hiff | split].
  - intros s. unfold DashboardView.render, LiveFeed.LiveFeed.
    destruct (distribution s) as [d|], (posts s) as [ps|]; eauto.
  - intros trace Hc. apply Hiff.
    induction trace as [|e trace IH] using rev_ind.
    + simpl. split; discriminate.
    + rewrite run_snoc, step_fields. simpl.
      assert (He : DashboardView.body_complete e = true)
        by (apply Hc, in_or_app; right; now left).
      destruct IH as [Hd Hp].
      { intros e' He'. apply Hc, in_or_app. now left. }
      destruct e as [ [ | code [ [ | [ [d|] ] ] | ] ]
                    | [ | code [ [ | [ [qs|] ] ] | ] ]
                    | ev now | | ]; simpl in *;
        try discriminate He; split; try assumption; discriminate.
Qed.

(** X15.  In every reachable state that renders, the feed and the trend
    chart show the same batch: the chart is drawn over the trend of exactly
    the posts listed in the feed, and it shows "No trend data" exactly when
    the feed has no row. *)
Theorem feed_and_trend_agree (trace : list Event) (v : DashboardView.View) :
  DashboardView.render (run trace) = inr v ->
  exists ps,
    posts (run trace) = Some ps
    /\ DashboardView.feed v = map LiveFeed.row_of ps
    /\ DashboardView.trend_chart v
       = SentimentChart.SentimentChart (trendData ps)
    /\ (DashboardView.trend_chart v = SentimentChart.NoTrendData
        <-> DashboardView.feed v = []).
Proof.
  assert (Inv : forall ps, posts (run trace) = Some ps ->
                           trend (run trace) = trendData ps).
  { induction trace as [|e trace IH] using rev_ind.
    - simpl. intros ps H. injection H as <-. reflexivity.
    - rewrite run_snoc. now apply step_keeps_trend. }
  unfold DashboardView.render, LiveFeed.LiveFeed.
  destruct (distribution (run trace)) as [d|]; [| discriminate].
  destruct (posts (run trace)) as [ps|] eqn:Hp; [| discriminate].
  intros H. injection H as <-. exists ps.
  cbn [DashboardView.feed DashboardView.trend_chart].
  rewrite (Inv ps eq_refl).
  split; [reflexivity |]. split; [reflexivity |]. split; [reflexivity |].
  unfold SentimentChart.SentimentChart.
  pose proof (trendData_nil_iff getHours ps) as Hnil.
  destruct (trendData ps) as [|pt l]; simpl; split; intros H.
  - rewrite (proj1 Hnil eq_refl). reflexivity.
  - reflexivity.
  - discriminate H.
  - destruct ps; [| discriminate H]. discriminate (proj2 Hnil eq_refl).
Qed.

End DashboardMore.

(* ================================================================== *)
(** * The child components *)

Lemma substring_0_length (n : nat) (s : string) :
  String.length (substring 0 n s) = Nat.min n (String.length s).
Proof.
  revert n. induction s as [|c s IH]; intros [|n]; simpl; auto.
Qed.

Lemma substring_0_prefix (n : nat) (s : string) :
  prefix (substring 0 n s) s = true.
Proof.
  revert n. induction s as [|c s IH]; intros [|n]; simpl; auto.
  destruct (ascii_dec c c); [apply IH | contradiction].
Qed.

Lemma substring_0_all (n : nat) (s : string) :
  String.length s <= n -> substring 0 n s = s.
Proof.
  revert n. induction s as [|c s IH]; intros [|n]; simpl; intros H;
    try reflexivity; try lia.
  f_equal. apply IH. lia.
Qed.

(** X11.  The feed has one row per post, in the order of the list, keyed by
    the post's id and carrying its label; the text of a row is the first 80
    characters of the content (the whole content when it has at most 80).
    With an undefined post list the component throws a [TypeError]. *)
Theorem live_feed_rows :
  LiveFeed.LiveFeed None = inl Js.TypeError
  /\ (forall ps : list Post.t,
        exists rows,
          LiveFeed.LiveFeed (Some ps) = inr rows
          /\ map LiveFeed.key rows = map Post.post_id ps
          /\ map LiveFeed.label rows
             = map (fun p => Post.label (Post.sentiment p)) ps
          /\ (forall i p, nth_error ps i = Some p ->
                exists r,
                  nth_error rows i = Some r
                  /\ prefix (LiveFeed.text r) (Post.content p) = true
                  /\ String.length (LiveFeed.text r)
                     = Nat.min 80 (String.length (Post.content p))
                  /\ (String.length (Post.content p) <= 80 ->
                      LiveFeed.text r = Post.content p))).
Proof.
  split; [reflexivity |].
  intros ps. exists (map LiveFeed.row_of ps).
  split; [reflexivity |]. split; [| split].
  - rewrite map_map. reflexivity.
  - rewrite map_map. reflexivity.
  - intros i p Hi. exists (LiveFeed.row_of p). split.
    + rewrite nth_error_map, Hi. reflexivity.
    + unfold LiveFeed.row_of. cbn [LiveFeed.text]. split; [| split].
      * apply substring_0_prefix.
      * apply substring_0_length.
      * apply substring_0_all.
Qed.

Lemma entries_by_keys {V : Type} (o : Js.Object V) (ks : list Js.PropertyKey) :
  (forall k, In k ks -> In k (map fst o)) ->
  map fst (flat_map (fun k => match Js.get o k with
                              | Some v => [(Js.key_to_string k, v)]
                              | None => []
                              end) ks)
  = map Js.key_to_string ks.
Proof.
  induction ks as [|k ks IH]; intros Hin; simpl; [reflexivity |].
  destruct (proj2 (get_Some_iff o k) (Hin k (or_introl eq_refl))) as [v Hv].
  rewrite Hv. simpl. f_equal. apply IH. intros k' Hk'. apply Hin. now right.
Qed.

(** X12.  [MetricsCards] shows one card per property of the object it is
    given, headed by the property names in the order of [Object.keys], and
    every card shows the value of the property it is headed by. *)
Theorem metrics_cards_of_properties (metrics : Js.Object float) :
  map MetricsCards.heading (MetricsCards.MetricsCards metrics)
  = map Js.key_to_string (Js.keys metrics)
  /\ List.length (MetricsCards.MetricsCards metrics) = List.length metrics
  /\ (forall c, In c (MetricsCards.MetricsCards metrics) ->
        exists k, MetricsCards.heading c = Js.key_to_string k
                  /\ Js.get metrics k = Some (MetricsCards.shown c)).
Proof.
  assert (Hh : map MetricsCards.heading (MetricsCards.MetricsCards metrics)
               = map Js.key_to_string (Js.keys metrics)).
  { unfold MetricsCards.MetricsCards, MetricsCards.Object_entries.
    rewrite map_map.
    etransitivity;
      [| apply (entries_by_keys metrics (Js.keys metrics));
         intros k; apply keys_In].
    apply map_ext. reflexivity. }
  split; [exact Hh | split].
  - rewrite <- (length_map MetricsCards.heading), Hh, length_map.
    rewrite (Permutation_length (keys_perm metrics)). apply length_map.
  - intros c Hc. unfold MetricsCards.MetricsCards in Hc.
    apply in_map_iff in Hc. destruct Hc as [[h v] [<- Hin]].
    unfold MetricsCards.Object_entries in Hin. apply in_flat_map in Hin.
    destruct Hin as [k [_ Hk]].
    destruct (Js.get metrics k) as [v'|] eqn:Hg; [| destruct Hk].
    destruct Hk as [Hk | []]. injection Hk as <- <-.
    exists k. simpl. auto.
Qed.

(** X13.  When the dashboard renders, its four cards are Total, Positive,
    Negative and Neutral in this order, the Total card shows the sum the
    distribution chart tests, and the chart shows "No sentiment data
    available" exactly when the Total card shows a number equal to 0. *)
Theorem cards_agree_with_chart (s : Dashboard.State) (v : DashboardView.View) :
  DashboardView.render s = inr v ->
  exists d,
    Dashboard.distribution s = Some d
    /\ DashboardView.cards v
       = [ MetricsCards.mkCard "Total" (DistributionChart.total d);
           MetricsCards.mkCard "Positive" (Distribution.positive d);
           MetricsCards.mkCard "Negative" (Distribution.negative d);
           MetricsCards.mkCard "Neutral" (Distribution.neutral d) ]
    /\ (DashboardView.chart v = DistributionChart.NoData
        <-> (DistributionChart.total d =? 0)%float = true)
    /\ DashboardView.status_text v
       = DashboardView.status_name (Dashboard.status s)
    /\ DashboardView.last_update_text v = Dashboard.lastUpdate s.
Proof.
  unfold DashboardView.render.
  destruct (Dashboard.distribution s) as [d|]; [| discriminate].
  destruct (LiveFeed.LiveFeed (Dashboard.posts s)) as [e|rows];
    [discriminate |].
  intros H. injection H as <-. exists d. cbn [DashboardView.cards
    DashboardView.chart DashboardView.status_text
    DashboardView.last_update_text].
  split; [reflexivity |]. split; [reflexivity |]. split; [| auto].
  unfold DistributionChart.DistributionChart.
  destruct (DistributionChart.total d =? 0)%float eqn:Ht.
  - rewrite (render_zero_total d Ht). simpl. tauto.
  - rewrite (render_nonzero_total d Ht). simpl.
    split; intros H; discriminate H.
Qed.

(** A count that is at least 0 and not greater than 0 is one of the two
    zeros. *)
Lemma nonneg_not_pos_is_zero (x : float) :
  (0 <=? x)%float = true -> (0 <? x)%float = false ->
  x = 0%float \/ x = (-0)%float.
Proof.
  rewrite leb_spec, ltb_spec. intros Hle Hlt.
  rewrite <- (SF2Prim_Prim2SF x).
  change (Prim2SF 0) with (S754_zero false) in *.
  destruct (Prim2SF x) as [[|] | [|] | | [|] m e];
    try discriminate Hle; try discriminate Hlt; auto.
Qed.

(** X14.  When the three counts are at least 0, the component shows either
    the "no data" paragraph or a chart with at least one slice; a chart
    without any slice needs a negative (or NaN) count, as in
    [{positive: -1, negative: 0, neutral: 0}]. *)
Theorem chart_of_nonnegative_counts :
  (forall data : Distribution.t,
      (forall k, (0 <=? Distribution.get data k)%float = true) ->
      DistributionChart.DistributionChart data = DistributionChart.NoData
      \/ exists s rest,
           DistributionChart.DistributionChart data
           = DistributionChart.Chart (s :: rest))
  /\ DistributionChart.DistributionChart (Distribution.mk (-1) 0 0)
     = DistributionChart.Chart [].
Proof.
  split; [| vm_compute; reflexivity].
  intros data Hnn. unfold DistributionChart.DistributionChart.
  destruct (DistributionChart.total data =? 0)%float eqn:Ht.
  - left. now rewrite (render_zero_total data Ht).
  - right. rewrite (render_nonzero_total data Ht). cbv zeta.
    unfold Distribution.keys. cbn [filter fst].
    pose proof (Hnn Positive) as Hp. pose proof (Hnn Negative) as Hn.
    pose proof (Hnn Neutral) as Hz.
    destruct (0 <? Distribution.get data Positive)%float eqn:Lp;
      [simpl; eauto |].
    destruct (0 <? Distribution.get data Negative)%float eqn:Ln;
      [simpl; eauto |].
    destruct (0 <? Distribution.get data Neutral)%float eqn:Lz;
      [simpl; eauto |].
    exfalso.
    apply nonneg_not_pos_is_zero in Lp; [| assumption].
    apply nonneg_not_pos_is_zero in Ln; [| assumption].
    apply nonneg_not_pos_is_zero in Lz; [| assumption].
    destruct data as [x y z]. simpl in Lp, Ln, Lz.
    unfold DistributionChart.total in Ht. simpl in Ht.
    destruct Lp as [-> | ->], Ln as [-> | ->], Lz as [-> | ->];
      vm_compute in Ht; discriminate Ht.
Qed.

(* ================================================================== *)
(** * The further properties on concrete runs *)

Lemma iso_hours_range (t : string) (h : nat) :
  iso_hours t = Some h -> h < 24.
Proof.
  unfold iso_hours.
  destruct (String.get 11 t) as [a|]; [| discriminate].
  destruct (String.get 12 t) as [b|]; [| discriminate].
  destruct (digit_value a) as [x|]; [| discriminate].
  destruct (digit_value b) as [y|]; [| discriminate].
  cbv zeta. destruct (Nat.ltb_spec (10 * x + y) 24) as [Hlt|Hge];
    [| discriminate].
  intros Heq. injection Heq as <-. exact Hlt.
Qed.

Section ExtraExamples.
Import Dashboard.

Lemma trend_depends_on_hour_and_label_witness :
  Dashboard.trendData iso_hours example_posts
  = Dashboard.trendData iso_hours example_posts_shuffled.
Proof.
  apply (trend_depends_on_hour_and_label iso_hours).
  vm_compute.
  eapply perm_trans; [apply perm_skip, perm_swap | apply perm_swap].
Defined.

Lemma no_trend_data_iff_no_posts_witness :
  SentimentChart.SentimentChart (Dashboard.trendData iso_hours [])
  = SentimentChart.NoTrendData.
Proof.
  apply (proj2 (no_trend_data_iff_no_posts iso_hours [])). reflexivity.
Defined.

Lemma trend_points_nonempty_witness :
  In (TrendPoint.mk "Hour 14" 0 0 1)
     (Dashboard.trendData iso_hours example_posts)
  /\ 1 <= TrendPoint.sum (TrendPoint.mk "Hour 14" 0 0 1).
Proof.
  assert (Hin : In (TrendPoint.mk "Hour 14" 0 0 1)
                   (Dashboard.trendData iso_hours example_posts)).
  { right. left. reflexivity. }
  split; [exact Hin |].
  exact (trend_points_nonempty iso_hours example_posts _ Hin).
Defined.

Lemma trend_size_bounds_witness :
  List.length (Dashboard.trendData iso_hours example_posts) <= 25.
Proof.
  apply (proj2 (trend_size_bounds iso_hours example_posts)).
  exact iso_hours_range.
Defined.

Lemma trend_follows_posts_witness :
  posts (run iso_hours example_trace) = Some example_posts
  /\ trend (run iso_hours example_trace)
     = Dashboard.trendData iso_hours example_posts.
Proof.
  split; [reflexivity |].
  apply (trend_follows_posts iso_hours example_trace example_posts).
  reflexivity.
Defined.

Lemma completions_commute_witness :
  step iso_hours
    (step iso_hours initial (PostsSettled (Api.Response 200 (Some (Api.JsonValue error_posts_body)))))
    ChannelClose
  = step iso_hours (step iso_hours initial ChannelClose)
      (PostsSettled (Api.Response 200 (Some (Api.JsonValue error_posts_body)))).
Proof.
  apply (proj2 (completions_commute iso_hours initial Api.NetworkError
                  (Api.Response 200 (Some (Api.JsonValue error_posts_body))))
               ChannelClose eq_refl).
Defined.

Lemma callbacks_frame_witness :
  let s' := step iso_hours (run iso_hours example_trace) ChannelError in
  distribution s' = distribution (run iso_hours example_trace)
  /\ posts s' = posts (run iso_hours example_trace)
  /\ trend s' = trend (run iso_hours example_trace)
  /\ lastUpdate s' = lastUpdate (run iso_hours example_trace).
Proof.
  apply (proj2 (proj2 (callbacks_frame iso_hours (run iso_hours example_trace)))
               ChannelError).
  left. reflexivity.
Defined.

Lemma status_is_last_channel_outcome_witness :
  status
    (run iso_hours
       ([ChannelError]
        ++ ChannelMessage example_message "10:00:00"
           :: [PostsSettled Api.NetworkError;
               ChannelMessage (Api.mkMessageEvent (Js.OtherText "ping")) "11:00:00"]))
  = connected.
Proof.
  apply (proj2 (status_is_last_channel_outcome iso_hours)).
  - reflexivity.
  - intros e' [<- | [<- | []]]; reflexivity.
Defined.

Lemma last_update_is_last_message_clock_witness :
  lastUpdate
    (run iso_hours
       ([ChannelMessage example_message "09:00:00"]
        ++ ChannelMessage example_message "10:00:00"
           :: [ChannelClose;
               ChannelMessage (Api.mkMessageEvent (Js.OtherText "ping")) "11:00:00"]))
  = "10:00:00".
Proof.
  apply (proj2 (last_update_is_last_message_clock iso_hours)).
  - reflexivity.
  - intros e' [<- | [<- | []]]; reflexivity.
Defined.

Lemma render_succeeds_witness :
  exists v, DashboardView.render (run iso_hours example_trace) = inr v.
Proof.
  apply (proj2 (proj2 (render_succeeds iso_hours)) example_trace).
  intros e [<- | [<- | [<- | [<- | []]]]]; reflexivity.
Defined.

Lemma live_feed_rows_witness :
  exists rows,
    LiveFeed.LiveFeed (Some example_posts) = inr rows
    /\ map LiveFeed.key rows = map Post.post_id example_posts
    /\ map LiveFeed.label rows
       = map (fun p => Post.label (Post.sentiment p)) example_posts
    /\ (forall i p, nth_error example_posts i = Some p ->
          exists r,
            nth_error rows i = Some r
            /\ prefix (LiveFeed.text r) (Post.content p) = true
            /\ String.length (LiveFeed.text r)
               = Nat.min 80 (String.length (Post.content p))
            /\ (String.length (Post.content p) <= 80 ->
                LiveFeed.text r = Post.content p)).
Proof. exact (proj2 live_feed_rows example_posts). Defined.

Lemma metrics_cards_of_properties_witness :
  In (MetricsCards.mkCard "Total" 77)
     (MetricsCards.MetricsCards
        (DashboardView.metrics 77 (Distribution.mk 45 12 20)))
  /\ exists k,
       MetricsCards.heading (MetricsCards.mkCard "Total" 77)
       = Js.key_to_string k
       /\ Js.get (DashboardView.metrics 77 (Distribution.mk 45 12 20)) k
          = Some (MetricsCards.shown (MetricsCards.mkCard "Total" 77)).
Proof.
  assert (Hin : In (MetricsCards.mkCard "Total" 77)
                   (MetricsCards.MetricsCards
                      (DashboardView.metrics 77 (Distribution.mk 45 12 20)))).
  { left. reflexivity. }
  split; [exact Hin |].
  exact (proj2 (proj2 (metrics_cards_of_properties
                         (DashboardView.metrics 77 (Distribution.mk 45 12 20))))
               _ Hin).
Defined.

Lemma cards_agree_with_chart_witness :
  exists v,
    DashboardView.render (run iso_hours example_trace) = inr v
    /\ exists d,
         distribution (run iso_hours example_trace) = Some d
         /\ DashboardView.cards v
            = [ MetricsCards.mkCard "Total" (DistributionChart.total d);
                MetricsCards.mkCard "Positive" (Distribution.positive d);
                MetricsCards.mkCard "Negative" (Distribution.negative d);
                MetricsCards.mkCard "Neutral" (Distribution.neutral d) ]
         /\ (DashboardView.chart v = DistributionChart.NoData
             <-> (DistributionChart.total d =? 0)%float = true)
         /\ DashboardView.status_text v
            = DashboardView.status_name (status (run iso_hours example_trace))
         /\ DashboardView.last_update_text v
            = lastUpdate (run iso_hours example_trace).
Proof.
  eexists. split; [reflexivity |].
  apply (cards_agree_with_chart (run iso_hours example_trace)).
  reflexivity.
Defined.

Lemma chart_of_nonnegative_counts_witness :
  (forall k, (0 <=? Distribution.get (Distribution.mk 45 12 20) k)%float = true)
  /\ (DistributionChart.DistributionChart (Distribution.mk 45 12 20)
      = DistributionChart.NoData
      \/ exists s rest,
           DistributionChart.DistributionChart (Distribution.mk 45 12 20)
           = DistributionChart.Chart (s :: rest)).
Proof.
  assert (H : forall k,
             (0 <=? Distribution.get (Distribution.mk 45 12 20) k)%float = true).
  { intros [| |]; vm_compute; reflexivity. }
  split; [exact H |].
  exact (proj1 chart_of_nonnegative_counts (Distribution.mk 45 12 20) H).
Defined.

Lemma feed_and_trend_agree_witness :
  exists v,
    DashboardView.render (run iso_hours example_trace) = inr v
    /\ exists ps,
         posts (run iso_hours example_trace) = Some ps
         /\ DashboardView.feed v = map LiveFeed.row_of ps
         /\ DashboardView.trend_chart v
            = SentimentChart.SentimentChart (Dashboard.trendData iso_hours ps)
         /\ (DashboardView.trend_chart v = SentimentChart.NoTrendData
             <-> DashboardView.feed v = []).
Proof.
  eexists. split; [reflexivity |].
  apply (feed_and_trend_agree iso_hours example_trace).
  reflexivity.
Defined.

End ExtraExamples.
